(** * Revenue forecast preprocessing: period decoding and rolling splits

    A shallow embedding of [src/data/preprocessor.py]: the period decoder
    [DataPreprocessor._parse_period], the schema check
    [DataPreprocessor._load_and_validate_data] and the rolling splitter
    [RollingForecastSplitter._process_single_file], with the library
    routines they call ([json.loads], [DataFrame.sort_values], [iloc]).

    Python [str] values are Rocq strings holding the UTF-8 bytes of the
    text; every character the decoder inspects is ASCII, so scanning bytes
    and scanning code points agree. *)

From Stdlib Require Import ZArith Ascii String List Lia Sorting.Sorted Sorting.Permutation.
From stdpp Require Import gmap strings list sorting.

Local Open Scope string_scope.
Set Warnings "-register-all".

(** ** Exceptions and results *)

Inductive exn :=
| JSONDecodeError
| AttributeError
| RecursionError
| ValueError
| KeyError
| FileNotFoundError.

Inductive result (A : Type) :=
| Ok (a : A)
| Raise (e : exn).
Arguments Ok {A} a.
Arguments Raise {A} e.

#[global] Instance result_ret : MRet result := fun A a => Ok a.
#[global] Instance result_bind : MBind result := fun A B k r =>
  match r with
  | Ok a => k a
  | Raise e => Raise e
  end.

(** ** Python values

    The values that reach the modelled code: table cells read by pandas and
    the objects [json.loads] builds. A float is kept as the text of its
    literal; a [dict] is its items in insertion order, keys unique; a
    datetime is its count of nanoseconds, [PNaT] the missing one. *)

Inductive pyval :=
| PNone
| PBool (b : bool)
| PInt (z : Z)
| PFloat (literal : string)
| PStr (s : string)
| PList (l : list pyval)
| PDict (items : list (string * pyval))
| PTimestamp (t : Z)
| PNaT.

(** [d[key] = value] on a dict: overwrite in place, else append. *)
Fixpoint dict_set (items : list (string * pyval)) (key : string) (value : pyval)
  : list (string * pyval) :=
  match items with
  | [] => [(key, value)]
  | (k, v) :: rest =>
      if String.eqb k key then (k, value) :: rest
      else (k, v) :: dict_set rest key value
  end.

(** [dict(pairs)]: later pairs win. *)
Definition dict_of_pairs (pairs : list (string * pyval)) : list (string * pyval) :=
  fold_left (fun d kv => dict_set d (fst kv) (snd kv)) pairs [].

Fixpoint dict_lookup (items : list (string * pyval)) (key : string) : option pyval :=
  match items with
  | [] => None
  | (k, v) :: rest => if String.eqb k key then Some v else dict_lookup rest key
  end.

(** [obj.get(key, default)]: only a dict has the attribute. *)
Definition py_get (obj : pyval) (key : string) (default : pyval) : result pyval :=
  match obj with
  | PDict items =>
      match dict_lookup items key with
      | Some v => Ok v
      | None => Ok default
      end
  | _ => Raise AttributeError
  end.

(** [s.replace(old, new)] for one-character [old] and [new]. *)
Fixpoint replace_char (old new : ascii) (s : string) : string :=
  match s with
  | EmptyString => EmptyString
  | String c rest =>
      String (if Ascii.eqb c old then new else c) (replace_char old new rest)
  end.

(** [obj.replace(old, new)]: only a str has the attribute. *)
Definition py_replace (obj : pyval) (old new : ascii) : result string :=
  match obj with
  | PStr s => Ok (replace_char old new s)
  | _ => Raise AttributeError
  end.

(** ** The JSON decoder ([json.decoder], [json.scanner]) *)

Definition code (c : ascii) : N := N_of_ascii c.

Definition is_ws (c : ascii) : bool :=
  (code c =? 32)%N || (code c =? 9)%N || (code c =? 10)%N || (code c =? 13)%N.

(** [WHITESPACE.match(s, end).end()] *)
Fixpoint skip_ws (s : string) : string :=
  match s with
  | String c rest => if is_ws c then skip_ws rest else s
  | EmptyString => s
  end.

Definition is_digit (c : ascii) : bool := (48 <=? code c)%N && (code c <=? 57)%N.

Definition hex_value (c : ascii) : option N :=
  let n := code c in
  if (48 <=? n)%N && (n <=? 57)%N then Some (n - 48)%N
  else if (65 <=? n)%N && (n <=? 70)%N then Some (n - 55)%N
  else if (97 <=? n)%N && (n <=? 102)%N then Some (n - 87)%N
  else None.

(** [int(esc.group(), 16)] on four hexadecimal digits. *)
Definition hex4 (a b c d : ascii) : option N :=
  match hex_value a, hex_value b, hex_value c, hex_value d with
  | Some x, Some y, Some z, Some w => Some (((x * 16 + y) * 16 + z) * 16 + w)%N
  | _, _, _, _ => None
  end.

Definition byte (n : N) : ascii := ascii_of_N n.

(** [chr(uni)] as UTF-8 bytes (a lone surrogate gets its three-byte form). *)
Definition chr (uni : N) : string :=
  if (uni <? 128)%N then String (byte uni) ""
  else if (uni <? 2048)%N then
    String (byte (192 + uni / 64)) (String (byte (128 + uni mod 64)) "")
  else if (uni <? 65536)%N then
    String (byte (224 + uni / 4096))
      (String (byte (128 + (uni / 64) mod 64)) (String (byte (128 + uni mod 64)) ""))
  else
    String (byte (240 + uni / 262144))
      (String (byte (128 + (uni / 4096) mod 64))
         (String (byte (128 + (uni / 64) mod 64)) (String (byte (128 + uni mod 64)) ""))).

(** The [BACKSLASH] table of [json.decoder]. *)
Definition BACKSLASH (esc : ascii) : option ascii :=
  let n := code esc in
  if (n =? 34)%N then Some esc
  else if (n =? 92)%N then Some esc
  else if (n =? 47)%N then Some esc
  else if (n =? 98)%N then Some (byte 8)
  else if (n =? 102)%N then Some (byte 12)
  else if (n =? 110)%N then Some (byte 10)
  else if (n =? 114)%N then Some (byte 13)
  else if (n =? 116)%N then Some (byte 9)
  else None.

Definition is_high_surrogate (uni : N) : bool := (55296 <=? uni)%N && (uni <=? 56319)%N.
Definition is_low_surrogate (uni : N) : bool := (56320 <=? uni)%N && (uni <=? 57343)%N.

Definition join_surrogates (uni uni2 : N) : N :=
  (65536 + ((uni - 55296) * 1024 + (uni2 - 56320)))%N.

Definition prepend (chunk : string) (r : result (string * string)) : result (string * string) :=
  '(content, rest) ← r; Ok (chunk +:+ content, rest).

(** [py_scanstring(s, end, strict=True)], from just after the opening quote:
    the decoded text and what follows the closing quote. *)
Fixpoint scanstring (s : string) : result (string * string) :=
  match s with
  | EmptyString => Raise JSONDecodeError
  | String c rest =>
      if (code c =? 34)%N then Ok ("", rest)
      else if (code c =? 92)%N then
        match rest with
        | EmptyString => Raise JSONDecodeError
        | String esc rest1 =>
            if (code esc =? 117)%N then
              match rest1 with
              | String h1 (String h2 (String h3 (String h4 rest2))) =>
                  match hex4 h1 h2 h3 h4 with
                  | None => Raise JSONDecodeError
                  | Some uni =>
                      match rest2 with
                      | String b (String u rest3) =>
                          if is_high_surrogate uni && (code b =? 92)%N && (code u =? 117)%N
                          then
                            match rest3 with
                            | String g1 (String g2 (String g3 (String g4 rest4))) =>
                                match hex4 g1 g2 g3 g4 with
                                | None => Raise JSONDecodeError
                                | Some uni2 =>
                                    if is_low_surrogate uni2
                                    then prepend (chr (join_surrogates uni uni2)) (scanstring rest4)
                                    else prepend (chr uni) (scanstring rest2)
                                end
                            | _ => Raise JSONDecodeError
                            end
                          else prepend (chr uni) (scanstring rest2)
                      | _ => prepend (chr uni) (scanstring rest2)
                      end
                  end
              | _ => Raise JSONDecodeError
              end
            else
              match BACKSLASH esc with
              | None => Raise JSONDecodeError
              | Some ch => prepend (String ch "") (scanstring rest1)
              end
        end
      else if (code c <? 32)%N then Raise JSONDecodeError
      else prepend (String c "") (scanstring rest)
  end.

(** Longest run of ASCII digits at the head of [s], and the remainder. *)
Fixpoint span_digits (s : string) : string * string :=
  match s with
  | String c rest =>
      if is_digit c then let '(ds, r) := span_digits rest in (String c ds, r)
      else ("", s)
  | EmptyString => ("", s)
  end.

Fixpoint digits_value (acc : Z) (ds : string) : Z :=
  match ds with
  | String c rest => digits_value (acc * 10 + Z.of_N (code c - 48)) rest
  | EmptyString => acc
  end.

(** The integer group of [NUMBER_RE]: a lone zero, or a non-zero digit and
    the digits after it. *)
Definition match_integer (s : string) : option (string * string) :=
  match s with
  | String c rest =>
      if (code c =? 48)%N then Some ("0", rest)
      else if is_digit c then let '(ds, r) := span_digits rest in Some (String c ds, r)
      else None
  | EmptyString => None
  end.

(** The optional groups of [NUMBER_RE]: a point and digits; an exponent
    mark, an optional sign and digits. *)
Definition match_frac (s : string) : string * string :=
  match s with
  | String c rest =>
      if (code c =? 46)%N then
        match span_digits rest with
        | (String d ds, r) => (String c (String d ds), r)
        | _ => ("", s)
        end
      else ("", s)
  | EmptyString => ("", s)
  end.

Definition match_exp (s : string) : string * string :=
  match s with
  | String c rest =>
      if (code c =? 101)%N || (code c =? 69)%N then
        match rest with
        | String sg rest1 =>
            if (code sg =? 45)%N || (code sg =? 43)%N then
              match span_digits rest1 with
              | (String d ds, r) => (String c (String sg (String d ds)), r)
              | _ => ("", s)
              end
            else
              match span_digits rest with
              | (String d ds, r) => (String c (String d ds), r)
              | _ => ("", s)
              end
        | EmptyString => ("", s)
        end
      else ("", s)
  | EmptyString => ("", s)
  end.

(** [match_number(string, idx)] and the conversion that follows it:
    [parse_int] when there is neither fraction nor exponent, else
    [parse_float] (the literal is kept). *)
Definition match_number (s : string) : option (pyval * string) :=
  let '(neg, s1) :=
    match s with
    | String c rest => if (code c =? 45)%N then (true, rest) else (false, s)
    | EmptyString => (false, s)
    end in
  match match_integer s1 with
  | None => None
  | Some (int, s2) =>
      let '(frac, s3) := match_frac s2 in
      let '(exp, s4) := match_exp s3 in
      match frac, exp with
      | EmptyString, EmptyString =>
          let z := digits_value 0 int in
          Some (PInt (if neg then - z else z), s4)
      | _, _ => Some (PFloat ((if neg then "-" else "") +:+ int +:+ frac +:+ exp), s4)
      end
  end.

(** [string[idx:idx + len(word)] == word]: what follows [word], if it is a prefix. *)
Fixpoint strip_prefix (word s : string) : option string :=
  match word, s with
  | EmptyString, _ => Some s
  | String a word', String b s' => if Ascii.eqb a b then strip_prefix word' s' else None
  | String _ _, EmptyString => None
  end.

Definition DQUOTE : ascii := byte 34.

(** [py_make_scanner._scan_once], [JSONObject] and [JSONArray]. Each call
    and each turn of a loop spends one unit of [fuel]; see [json_loads] for
    the budget. [object_loop] starts just after the opening quote of a key,
    [array_loop] at the first character of an element. *)
Fixpoint scan_once (fuel : nat) (s : string) : result (pyval * string) :=
  match fuel with
  | O => Raise RecursionError
  | S fuel' =>
      match s with
      | EmptyString => Raise JSONDecodeError
      | String c rest =>
          if Ascii.eqb c DQUOTE then
            '(str, r) ← scanstring rest; Ok (PStr str, r)
          else if Ascii.eqb c "{" then
            match skip_ws rest with
            | String c1 r1 =>
                if Ascii.eqb c1 "}" then Ok (PDict [], r1)
                else if Ascii.eqb c1 DQUOTE then object_loop fuel' r1 []
                else Raise JSONDecodeError
            | EmptyString => Raise JSONDecodeError
            end
          else if Ascii.eqb c "[" then
            match skip_ws rest with
            | String c1 r1 =>
                if Ascii.eqb c1 "]" then Ok (PList [], r1)
                else array_loop fuel' (String c1 r1) []
            | EmptyString => array_loop fuel' EmptyString []
            end
          else
            match strip_prefix "null" s, strip_prefix "true" s, strip_prefix "false" s with
            | Some r, _, _ => Ok (PNone, r)
            | None, Some r, _ => Ok (PBool true, r)
            | None, None, Some r => Ok (PBool false, r)
            | None, None, None =>
                match match_number s with
                | Some (num, r) => Ok (num, r)
                | None =>
                    match strip_prefix "NaN" s, strip_prefix "Infinity" s,
                          strip_prefix "-Infinity" s with
                    | Some r, _, _ => Ok (PFloat "NaN", r)
                    | None, Some r, _ => Ok (PFloat "Infinity", r)
                    | None, None, Some r => Ok (PFloat "-Infinity", r)
                    | None, None, None => Raise JSONDecodeError
                    end
                end
            end
      end
  end
with object_loop (fuel : nat) (s : string) (pairs : list (string * pyval))
  : result (pyval * string) :=
  match fuel with
  | O => Raise RecursionError
  | S fuel' =>
      '(key, s1) ← scanstring s;
      match skip_ws s1 with
      | String c s2 =>
          if Ascii.eqb c ":" then
            '(value, s3) ← scan_once fuel' (skip_ws s2);
            let pairs := (pairs ++ [(key, value)])%list in
            match skip_ws s3 with
            | String c1 s4 =>
                if Ascii.eqb c1 "}" then Ok (PDict (dict_of_pairs pairs), s4)
                else if Ascii.eqb c1 "," then
                  match skip_ws s4 with
                  | String q s5 =>
                      if Ascii.eqb q DQUOTE then object_loop fuel' s5 pairs
                      else Raise JSONDecodeError
                  | EmptyString => Raise JSONDecodeError
                  end
                else Raise JSONDecodeError
            | EmptyString => Raise JSONDecodeError
            end
          else Raise JSONDecodeError
      | EmptyString => Raise JSONDecodeError
      end
  end
with array_loop (fuel : nat) (s : string) (values : list pyval)
  : result (pyval * string) :=
  match fuel with
  | O => Raise RecursionError
  | S fuel' =>
      '(value, s1) ← scan_once fuel' s;
      let values := (values ++ [value])%list in
      match skip_ws s1 with
      | String c s2 =>
          if Ascii.eqb c "]" then Ok (PList values, s2)
          else if Ascii.eqb c "," then array_loop fuel' (skip_ws s2) values
          else Raise JSONDecodeError
      | EmptyString => Raise JSONDecodeError
      end
  end.

(** The byte order mark U+FEFF, which [json.loads] refuses at the start. *)
Definition BOM : string := chr 65279.

(** [json.loads(s)] for a [str]: [JSONDecoder.decode] with the default
    hooks. A nested call or a loop turn of the decoder spends at most two
    units of fuel for each character it consumes, so the budget below is
    never used up ([json_loads_RecursionError]). *)
Definition json_loads (s : string) : result pyval :=
  match strip_prefix BOM s with
  | Some _ => Raise JSONDecodeError
  | None =>
      '(obj, rest) ← scan_once (S (2 * String.length s)) (skip_ws s);
      match skip_ws rest with
      | EmptyString => Ok obj
      | String _ _ => Raise JSONDecodeError
      end
  end.


(** ** The world: files, directories and the log *)

Inductive level := INFO | WARNING | ERROR.

(** One constructor per message the modelled code formats. *)
Inductive message :=
| Error_parsing_period (period_str : pyval) (e : exn)
| Loaded_rows (n : nat) (file_path : string * string)
| Error_loading_data (e : exn)
| No_CSV_files_found (input_dir : string)
| Processing_files (n : nat)
| Not_enough_data_points (name : string) (n min_data_points : nat)
| Split_completed (name : string)
| Split_train (filename : string * string) (n : nat)
| Split_initial_test (filename : string * string) (n : nat)
| Split_final_test (filename : string * string) (n : nat)
| Error_processing (name : string) (e : exn).

(** A table as pandas holds it: the header and the rows, one cell per
    column. *)
Record DataFrame := { columns : list string; rows : list (list pyval) }.

(** A file path is its directory and its final component. *)
Abbreviation Path := (string * string)%type.

Record world := {
  files : gmap Path DataFrame;
  dirs : gset string;
  log : list (level * message)
}.

Definition M (A : Type) : Type := world → result A * world.

#[global] Instance M_ret : MRet M := fun A a w => (Ok a, w).
#[global] Instance M_bind : MBind M := fun A B k m w =>
  match m w with
  | (Ok a, w') => k a w'
  | (Raise e, w') => (Raise e, w')
  end.

Definition lift {A} (r : result A) : M A := fun w => (r, w).
Definition raise {A} (e : exn) : M A := lift (Raise e).

Definition logger (lvl : level) (m : message) : M unit := fun w =>
  (Ok tt, {| files := files w; dirs := dirs w; log := log w ++ [(lvl, m)] |}).

(** [try: body except classes as e: handler(e)] *)
Definition try_except {A} (body : M A) (classes : exn → bool) (handler : exn → M A) : M A :=
  fun w =>
    match body w with
    | (Raise e, w') => if classes e then handler e w' else (Raise e, w')
    | (Ok a, w') => (Ok a, w')
    end.

(** [path.mkdir(parents=True, exist_ok=True)] *)
Definition mkdir (dir : string) : M unit := fun w =>
  (Ok tt, {| files := files w; dirs := {[dir]} ∪ dirs w; log := log w |}).

(** [pd.read_csv(path)]: the table the file holds. *)
Definition read_csv (path : Path) : M DataFrame := fun w =>
  match files w !! path with
  | Some df => (Ok df, w)
  | None => (Raise FileNotFoundError, w)
  end.

(** [df.to_csv(path, index=False)]: the file is created or overwritten; a
    table without rows still gives a file, with the header only. *)
Definition to_csv (df : DataFrame) (path : Path) : M unit := fun w =>
  (Ok tt, {| files := <[path := df]> (files w); dirs := dirs w; log := log w |}).

Definition any_exception (e : exn) : bool := true.

Fixpoint index_of (col : string) (cols : list string) : option nat :=
  match cols with
  | [] => None
  | c :: rest => if String.eqb c col then Some 0 else S <$> index_of col rest
  end.

(** [col in df.columns] *)
Definition has_column (df : DataFrame) (col : string) : bool :=
  bool_decide (is_Some (index_of col (columns df))).

(** [df[cols]] when every name of [cols] is a column: those columns, in the
    order of [cols]. *)
Definition select_columns (df : DataFrame) (cols : list string) : DataFrame :=
  {| columns := cols;
     rows := map (fun row =>
               map (fun col => default PNone (i ← index_of col (columns df); row !! i)) cols)
             (rows df) |}.

(** ** DataPreprocessor *)

Module DataPreprocessor.

Definition JSONDecodeError_or_AttributeError (e : exn) : bool :=
  match e with
  | JSONDecodeError | AttributeError => true
  | _ => false
  end.

(** [DataPreprocessor._parse_period] *)
Definition _parse_period (period_str : pyval) : M (pyval * pyval) :=
  try_except
    (lift (
      text ← py_replace period_str "'" DQUOTE;
      period_dict ← json_loads text;
      type ← py_get period_dict "type" (PDict []);
      period_type ← py_get type "S" PNone;
      start ← py_get period_dict "start_date" (PDict []);
      start_date ← py_get start "S" PNone;
      Ok (period_type, start_date)))
    JSONDecodeError_or_AttributeError
    (fun e =>
      logger WARNING (Error_parsing_period period_str e);;
      mret (PNone, PNone)).

Definition required_columns : list string :=
  ["partner_id"; "period"; "report_type"; "value"].

(** [DataPreprocessor._load_and_validate_data] *)
Definition _load_and_validate_data (file_path : Path) : M DataFrame :=
  try_except
    (df ← read_csv file_path;
     if negb (forallb (has_column df) required_columns)
     then raise ValueError
     else
       logger INFO (Loaded_rows (length (rows df)) file_path);;
       mret (select_columns df required_columns))
    any_exception
    (fun e =>
      logger ERROR (Error_loading_data e);;
      raise e).

(** [DataPreprocessor.__init__]. The stage that follows the load,
    [_process_data], only ever receives the validated table; it is a
    parameter here, so that what is shown of a failed load holds whatever
    that stage does. *)
Section init.
Variable _process_data : DataFrame → M DataFrame.

Definition __init__ (file_path : Path) (output_dir : string) : M DataFrame :=
  mkdir output_dir;;
  df ← _load_and_validate_data file_path;
  _process_data df.
End init.

End DataPreprocessor.

(** [preprocess_data(file_path, output_dir)] *)
Definition preprocess_data (_process_data : DataFrame → M DataFrame)
    (split_and_save : DataFrame → string → M (list Path))
    (file_path : Path) (output_dir : string) : M unit :=
  preprocessor ← DataPreprocessor.__init__ _process_data file_path output_dir;
  split_and_save preprocessor output_dir;;
  mret tt.

(** ** Sorting as the libraries do it

    [df.sort_values(by=col)] passes no [kind] and no [na_position]: pandas
    takes [kind="quicksort"] and [na_position="last"], masks the missing
    keys out, asks NumPy for the argsort of the others and puts the missing
    ones behind them ([pandas.core.sorting.nargsort]). *)

Local Open Scope Z_scope.

Section npysort.
(** [aquicksort_<datetime_tag>] of NumPy's [npysort/quicksort.cpp] and
    the [aheapsort_] it falls back on: [v] is the key array, [a] the
    index array [tosort]; a pointer into [tosort] is its offset. *)
Variable v : list Z.

Definition less (x y : Z) : bool := x <? y.

Definition get (a : list nat) (p : Z) : nat := nth (Z.to_nat p) a O.
Definition set (a : list nat) (p : Z) (x : nat) : list nat := <[Z.to_nat p := x]> a.
Definition key (a : list nat) (p : Z) : Z := nth (get a p) v 0.
Definition INTP_SWAP (a : list nat) (p q : Z) : list nat :=
  set (set a p (get a q)) q (get a p).

Definition SMALL_QUICKSORT : Z := 16.

(** [do { ++pi; } while (less(v[*pi], vp));] *)
Fixpoint scan_up (fuel : nat) (a : list nat) (vp : Z) (pi : Z) : Z :=
  match fuel with
  | O => pi
  | S fuel' =>
      let pi := pi + 1 in
      if less (key a pi) vp then scan_up fuel' a vp pi else pi
  end.

(** [do { --pj; } while (less(vp, v[*pj]));] *)
Fixpoint scan_down (fuel : nat) (a : list nat) (vp : Z) (pj : Z) : Z :=
  match fuel with
  | O => pj
  | S fuel' =>
      let pj := pj - 1 in
      if less vp (key a pj) then scan_down fuel' a vp pj else pj
  end.

(** The [for (;;)] of the partition: the array and where [pi] stopped. *)
Fixpoint partition_loop (fuel : nat) (a : list nat) (vp : Z) (pi pj : Z) : list nat * Z :=
  match fuel with
  | O => (a, pi)
  | S fuel' =>
      let pi := scan_up (length a) a vp pi in
      let pj := scan_down (length a) a vp pj in
      if pi >=? pj then (a, pi)
      else partition_loop fuel' (INTP_SWAP a pi pj) vp pi pj
  end.

(** One turn of [while ((pr - pl) > SMALL_QUICKSORT)], up to the push. *)
Definition partition (a : list nat) (pl pr : Z) : list nat * Z :=
  let pm := pl + Z.shiftr (pr - pl) 1 in
  let a := if less (key a pm) (key a pl) then INTP_SWAP a pm pl else a in
  let a := if less (key a pr) (key a pm) then INTP_SWAP a pr pm else a in
  let a := if less (key a pm) (key a pl) then INTP_SWAP a pm pl else a in
  let vp := key a pm in
  let pi := pl in
  let pj := pr - 1 in
  let a := INTP_SWAP a pm pj in
  let '(a, pi) := partition_loop (length a) a vp pi pj in
  let pk := pr - 1 in
  (INTP_SWAP a pi pk, pi).

(** The inner [while] of the insertion sort, then [*pj = vi]. *)
Fixpoint insert_back (fuel : nat) (a : list nat) (pl : Z) (vi : nat) (vp : Z) (pj : Z)
  : list nat :=
  match fuel with
  | O => set a pj vi
  | S fuel' =>
      if (pj >? pl) && less vp (key a (pj - 1))
      then insert_back fuel' (set a pj (get a (pj - 1))) pl vi vp (pj - 1)
      else set a pj vi
  end.

(** [for (pi = pl + 1; pi <= pr; ++pi)] *)
Fixpoint insertion_sort (fuel : nat) (a : list nat) (pl pr pi : Z) : list nat :=
  match fuel with
  | O => a
  | S fuel' =>
      if pi <=? pr then
        let vi := get a pi in
        let vp := nth vi v 0 in
        insertion_sort fuel' (insert_back (length a) a pl vi vp pi) pl pr (pi + 1)
      else a
  end.

(** The sift loop shared by both phases of [aheapsort_]; the heap is
    [a[1..n]] with [a = tosort - 1], here [tosort] at offset [base]. *)
Fixpoint sift (fuel : nat) (a : list nat) (base : Z) (tmp : nat) (i j n : Z) : list nat :=
  match fuel with
  | O => set a (base + i) tmp
  | S fuel' =>
      if j <=? n then
        let j := if (j <? n) && less (key a (base + j)) (key a (base + j + 1))
                 then j + 1 else j in
        if less (nth tmp v 0) (key a (base + j))
        then sift fuel' (set a (base + i) (get a (base + j))) base tmp j (j + j) n
        else set a (base + i) tmp
      else set a (base + i) tmp
  end.

(** [for (l = n >> 1; l > 0; --l)] *)
Fixpoint heapify (fuel : nat) (a : list nat) (base : Z) (l n : Z) : list nat :=
  match fuel with
  | O => a
  | S fuel' =>
      if l >? 0 then
        let tmp := get a (base + l) in
        heapify fuel' (sift (length a) a base tmp l (Z.shiftl l 1) n) base (l - 1) n
      else a
  end.

(** [for (; n > 1;)] *)
Fixpoint sortdown (fuel : nat) (a : list nat) (base : Z) (n : Z) : list nat :=
  match fuel with
  | O => a
  | S fuel' =>
      if n >? 1 then
        let tmp := get a (base + n) in
        let a := set a (base + n) (get a (base + 1)) in
        let n := n - 1 in
        sortdown fuel' (sift (length a) a base tmp 1 2 n) base n
      else a
  end.

Definition aheapsort (a : list nat) (tosort : Z) (n : Z) : list nat :=
  let base := tosort - 1 in
  let a := heapify (length a) a base (Z.shiftr n 1) n in
  sortdown (length a) a base n.

(** The inner [while] of [aquicksort_]: partition, push the larger part,
    go on with the smaller one. *)
Fixpoint partition_while (fuel : nat) (a : list nat) (pl pr : Z)
    (stack : list (Z * Z * Z)) (cdepth : Z) : list nat * Z * Z * list (Z * Z * Z) :=
  match fuel with
  | O => (a, pl, pr, stack)
  | S fuel' =>
      if (pr - pl) >? SMALL_QUICKSORT then
        let '(a, pi) := partition a pl pr in
        let cdepth := cdepth - 1 in
        if (pi - pl) <? (pr - pi)
        then partition_while fuel' a pl (pi - 1) ((pi + 1, pr, cdepth) :: stack) cdepth
        else partition_while fuel' a (pi + 1) pr ((pl, pi - 1, cdepth) :: stack) cdepth
      else (a, pl, pr, stack)
  end.

(** The outer [while (1)] with its [stack_pop]. *)
Fixpoint aquicksort_loop (fuel : nat) (a : list nat) (pl pr : Z)
    (stack : list (Z * Z * Z)) (cdepth : Z) : list nat :=
  match fuel with
  | O => a
  | S fuel' =>
      let '(a, stack) :=
        if cdepth <? 0 then (aheapsort a pl (pr - pl + 1), stack)
        else
          let '(a, pl, pr, stack) := partition_while (length a) a pl pr stack cdepth in
          (insertion_sort (length a) a pl pr (pl + 1), stack) in
      match stack with
      | [] => a
      | (pl, pr, cdepth) :: stack => aquicksort_loop fuel' a pl pr stack cdepth
      end
  end.
End npysort.

(** [npy_get_msb] *)
Definition npy_get_msb (num : Z) : Z := Z.log2 num.

(** [numpy.argsort(v, kind="quicksort")] on datetime keys: the index array
    starts as [0 .. num - 1]. *)
Definition aquicksort (v : list Z) : list nat :=
  let num := Z.of_nat (length v) in
  aquicksort_loop v (S (length v)) (seq 0 (length v)) 0 (num - 1) [] (npy_get_msb num * 2).


Local Close Scope Z_scope.

(** ** Tables: columns, reordering and slices *)

Definition len (df : DataFrame) : nat := length (rows df).

(** [df[col]] *)
Definition getitem (df : DataFrame) (col : string) : result (list pyval) :=
  match index_of col (columns df) with
  | Some i => Ok (map (fun row => default PNone (row !! i)) (rows df))
  | None => Raise KeyError
  end.

(** [df[col] = values], one value per row. *)
Definition setitem (df : DataFrame) (col : string) (values : list pyval) : DataFrame :=
  match index_of col (columns df) with
  | Some i =>
      {| columns := columns df;
         rows := zip_with (fun row x => <[i := x]> row) (rows df) values |}
  | None =>
      {| columns := (columns df ++ [col])%list;
         rows := zip_with (fun row x => (row ++ [x])%list) (rows df) values |}
  end.

(** [df.take(indexer)], the row labels renumbered ([reset_index(drop=True)]). *)
Definition take_rows (indexer : list nat) (df : DataFrame) : DataFrame :=
  {| columns := columns df; rows := map (fun i => nth i (rows df) []) indexer |}.

(** [df.iloc[:-k]] and [df.iloc[-k:]] for a literal [k > 0]: a frame shorter
    than [k] gives no row and every row. *)
Definition iloc_until_last (k : nat) (df : DataFrame) : DataFrame :=
  {| columns := columns df; rows := take (len df - k) (rows df) |}.
Definition iloc_last (k : nat) (df : DataFrame) : DataFrame :=
  {| columns := columns df; rows := drop (len df - k) (rows df) |}.

Definition datetime_cell (t : option Z) : pyval :=
  match t with
  | Some t => PTimestamp t
  | None => PNaT
  end.

Definition datetime_key (x : pyval) : option Z :=
  match x with
  | PTimestamp t => Some t
  | _ => None
  end.

Fixpoint indices_where {A} (p : A → bool) (i : nat) (l : list A) : list nat :=
  match l with
  | [] => []
  | x :: l' => if p x then i :: indices_where p (S i) l' else indices_where p (S i) l'
  end.

(** [Path.stem]: the name up to its last dot, unless that dot comes first
    or last. *)
Fixpoint rfind_dot (s : string) (i : nat) (found : option nat) : option nat :=
  match s with
  | EmptyString => found
  | String c rest => rfind_dot rest (S i) (if Ascii.eqb c "." then Some i else found)
  end.

Definition stem (name : string) : string :=
  match rfind_dot name 0 None with
  | Some i => if bool_decide (0 < i < String.length name - 1)
              then substring 0 i name else name
  | None => name
  end.

(** ** RollingForecastSplitter *)

Module RollingForecastSplitter.
Section splitter.
(** [pd.to_datetime(column, errors='coerce')]: a datetime or, for what
    does not parse, NaT ([None]) for each cell. *)
Variable to_datetime : list pyval → list (option Z).
(** [ndarray.argsort(kind="quicksort")] on the keys that are not NaT. *)
Variable argsort : list Z → list nat.

(** [nargsort(items, kind="quicksort", ascending=True, na_position="last")] *)
Definition nargsort (items : list (option Z)) : list nat :=
  let non_nans := omap id items in
  let non_nan_idx := indices_where (fun x : option Z => bool_decide (is_Some x)) 0 items in
  let nan_idx := indices_where (fun x : option Z => bool_decide (x = None)) 0 items in
  (map (fun k => nth k non_nan_idx 0) (argsort non_nans) ++ nan_idx)%list.

(** [df.sort_values(by=col).reset_index(drop=True)] on a datetime column. *)
Definition sort_values (df : DataFrame) (col : string) : result DataFrame :=
  keys ← getitem df col;
  Ok (take_rows (nargsort (map datetime_key keys)) df).

Definition __init__ (input_dir output_dir : string) : M (string * string) :=
  mkdir output_dir;;
  mret (input_dir, output_dir).

(** [RollingForecastSplitter._process_single_file] *)
Definition _process_single_file (output_dir : string) (file_path : Path)
    (min_data_points : nat) : M unit :=
  try_except
    (df ← read_csv file_path;
     column ← lift (getitem df "start_date");
     let df := setitem df "start_date" (datetime_cell <$> to_datetime column) in
     df ← lift (sort_values df "start_date");
     if bool_decide (len df < min_data_points) then
       logger WARNING (Not_enough_data_points file_path.2 (len df) min_data_points)
     else
       let train_df := iloc_until_last 8 df in
       let initial_test_df := iloc_last 8 df in
       let final_test_df := iloc_until_last 4 initial_test_df in
       let base_name := stem file_path.2 in
       let train_filename := (output_dir, base_name +:+ "_train.csv") in
       let initial_test_filename := (output_dir, base_name +:+ "_initial_test.csv") in
       let final_test_filename := (output_dir, base_name +:+ "_final_test.csv") in
       to_csv train_df train_filename;;
       to_csv initial_test_df initial_test_filename;;
       to_csv final_test_df final_test_filename;;
       logger INFO (Split_completed file_path.2);;
       logger INFO (Split_train train_filename (len train_df));;
       logger INFO (Split_initial_test initial_test_filename (len initial_test_df));;
       logger INFO (Split_final_test final_test_filename (len final_test_df)))
    any_exception
    (fun e => logger ERROR (Error_processing file_path.2 e)).

Fixpoint ends_with_csv (name : string) : bool :=
  match name with
  | EmptyString => false
  | String _ rest => String.eqb name ".csv" || ends_with_csv rest
  end.

(** [list(input_dir.glob("*.csv"))], in the order the map lists them. *)
Definition glob_csv (input_dir : string) : M (list Path) := fun w =>
  (Ok (filter (fun p : Path => p.1 = input_dir ∧ ends_with_csv p.2 = true)
         (map_to_list (files w)).*1), w).

Fixpoint for_each {A} (l : list A) (body : A → M unit) : M unit :=
  match l with
  | [] => mret tt
  | x :: l' => body x;; for_each l' body
  end.

(** [RollingForecastSplitter.process_files] *)
Definition process_files (self : string * string) (min_data_points : nat) : M unit :=
  csv_files ← glob_csv self.1;
  match csv_files with
  | [] => logger WARNING (No_CSV_files_found self.1)
  | _ =>
      logger INFO (Processing_files (length csv_files));;
      for_each csv_files (fun file_path =>
        _process_single_file self.2 file_path min_data_points)
  end.

(** [create_rolling_splits(input_dir, output_dir)]: [process_files()] with
    its default [min_data_points=8]. *)
Definition create_rolling_splits (input_dir output_dir : string) : M unit :=
  splitter ← __init__ input_dir output_dir;
  process_files splitter 8.
End splitter.
End RollingForecastSplitter.

Local Open Scope list_scope.
Local Open Scope nat_scope.

(** ** Statements about the decoder and about period strings *)

(** What a call of the decoder may do when its budget covers the text it
    is given: fail to decode, or consume at least one character. *)
Definition within_budget (s : string) (r : result (pyval * string)) : Prop :=
  match r with
  | Ok (_, rest) => String.length rest < String.length s
  | Raise e => e = JSONDecodeError
  end.

(** The period text [{'type': {tag: T}, 'start_date': {tag: D}}] with [q]
    as its quote character and [sp] after each colon and comma. *)
Definition period_text (q : ascii) (sp tag T D : string) : string :=
  let Q := String q EmptyString in
  "{" +:+ Q +:+ "type" +:+ Q +:+ ":" +:+ sp +:+
  "{" +:+ Q +:+ tag +:+ Q +:+ ":" +:+ sp +:+ Q +:+ T +:+ Q +:+ "}" +:+ "," +:+ sp +:+
  Q +:+ "start_date" +:+ Q +:+ ":" +:+ sp +:+
  "{" +:+ Q +:+ tag +:+ Q +:+ ":" +:+ sp +:+ Q +:+ D +:+ Q +:+ "}" +:+ "}".

(** Text that needs no escaping inside a JSON string and holds no quote of
    either kind. *)
Fixpoint plain_text (s : string) : bool :=
  match s with
  | EmptyString => true
  | String c rest =>
      negb (code c =? 34)%N && negb (code c =? 39)%N && negb (code c =? 92)%N
      && (32 <=? code c)%N && plain_text rest
  end.

Fixpoint blank (s : string) : bool :=
  match s with
  | EmptyString => true
  | String c rest => is_ws c && blank rest
  end.

Definition quiet : world := {| files := ∅; dirs := ∅; log := [] |}.

Definition warned (period_str : pyval) (e : exn) (w : world) : world :=
  {| files := files w; dirs := dirs w;
     log := log w ++ [(WARNING, Error_parsing_period period_str e)] |}.

(** ** The splitter, step by step *)

Section group.
Variable to_datetime : list pyval → list (option Z).
Variable argsort : list Z → list nat.

(** The table of a group file with its [start_date] column coerced, before
    the sort. *)
Definition coerced (df0 : DataFrame) (column : list pyval) : DataFrame :=
  setitem df0 "start_date" (datetime_cell <$> to_datetime column).

(** The frame [df] of [_process_single_file] when its length is tested:
    the table of the file with its [start_date] column coerced, sorted. *)
Definition sorted_group (df0 : DataFrame) : result DataFrame :=
  column ← getitem df0 "start_date";
  RollingForecastSplitter.sort_values argsort
    (setitem df0 "start_date" (datetime_cell <$> to_datetime column)) "start_date".
End group.

(** The three slices, as the code names them. *)
Definition train_df (df : DataFrame) : DataFrame := iloc_until_last 8 df.
Definition initial_test_df (df : DataFrame) : DataFrame := iloc_last 8 df.
Definition final_test_df (df : DataFrame) : DataFrame :=
  iloc_until_last 4 (initial_test_df df).

Definition train_filename (output_dir : string) (file_path : Path) : Path :=
  (output_dir, stem file_path.2 +:+ "_train.csv").
Definition initial_test_filename (output_dir : string) (file_path : Path) : Path :=
  (output_dir, stem file_path.2 +:+ "_initial_test.csv").
Definition final_test_filename (output_dir : string) (file_path : Path) : Path :=
  (output_dir, stem file_path.2 +:+ "_final_test.csv").

(** The world after a split of [df] has been saved and reported. *)
Definition split_saved (output_dir : string) (file_path : Path) (df : DataFrame)
    (w : world) : world :=
  {| files :=
       <[final_test_filename output_dir file_path := final_test_df df]>
         (<[initial_test_filename output_dir file_path := initial_test_df df]>
            (<[train_filename output_dir file_path := train_df df]> (files w)));
     dirs := dirs w;
     log := log w ++
       [(INFO, Split_completed file_path.2);
        (INFO, Split_train (train_filename output_dir file_path) (len (train_df df)));
        (INFO, Split_initial_test (initial_test_filename output_dir file_path)
                 (len (initial_test_df df)));
        (INFO, Split_final_test (final_test_filename output_dir file_path)
                 (len (final_test_df df)))] |}.

Definition skipped (file_path : Path) (n min_data_points : nat) (w : world) : world :=
  {| files := files w; dirs := dirs w;
     log := log w ++ [(WARNING, Not_enough_data_points file_path.2 n min_data_points)] |}.

Definition is_valid (x : option Z) : bool := bool_decide (is_Some x).
Definition is_NaT (x : option Z) : bool := bool_decide (x = None).

(** A table read from a file has one cell per column in every row. *)
Definition rectangular (df : DataFrame) : Prop :=
  Forall (fun row => length row = length (columns df)) (rows df).

(** The claim of C3 on ties, read on the positions: [indexer] lists the
    original positions in their new order, and two positions with equal
    keys appear in it in their original order. *)
Definition stable_order (keys : list (option Z)) (indexer : list nat) : Prop :=
  ∀ p q a b, p < q → indexer !! p = Some a → indexer !! q = Some b →
    keys !! a = keys !! b → a < b.

(** ** Instances of the library calls and example data *)

Definition raw_without_value : world :=
  {| files := {[ ("data/raw", "partner_revenue.csv") :=
                  {| columns := ["partner_id"; "period"; "report_type"];
                     rows := [[PStr "P1"; PStr "{'type': {'S': 'M'}}"; PStr "revenue"]] |} ]};
     dirs := ∅; log := [] |}.

(** Days from 1970-01-01 to a date of the proleptic Gregorian calendar. *)
Definition days_from_civil (y m d : Z) : Z :=
  let y := if (m <=? 2)%Z then (y - 1)%Z else y in
  let era := (y / 400)%Z in
  let yoe := (y - era * 400)%Z in
  let doy := ((153 * (if (m >? 2)%Z then m - 3 else m + 9) + 2) / 5 + d - 1)%Z in
  let doe := (yoe * 365 + yoe / 4 - yoe / 100 + doy)%Z in
  (era * 146097 + doe - 719468)%Z.

Definition days_in_month (y m : Z) : Z :=
  if (m =? 2)%Z then
    if ((y mod 4 =? 0) && (negb (y mod 100 =? 0) || (y mod 400 =? 0)))%Z then 29%Z else 28%Z
  else if ((m =? 4) || (m =? 6) || (m =? 9) || (m =? 11))%Z then 30%Z
  else 31%Z.

(** The text [YYYY-MM-DD] as nanoseconds since the epoch, or nothing. *)
Definition iso_date (s : string) : option Z :=
  match s with
  | String y1 (String y2 (String y3 (String y4 (String h1
      (String m1 (String m2 (String h2 (String d1 (String d2 EmptyString))))))))) =>
      if forallb is_digit [y1; y2; y3; y4; m1; m2; d1; d2]
         && Ascii.eqb h1 "-" && Ascii.eqb h2 "-"
      then
        let y := digits_value 0 (String y1 (String y2 (String y3 (String y4 EmptyString)))) in
        let m := digits_value 0 (String m1 (String m2 EmptyString)) in
        let d := digits_value 0 (String d1 (String d2 EmptyString)) in
        if ((1 <=? m) && (m <=? 12) && (1 <=? d) && (d <=? days_in_month y m))%Z
        then Some (days_from_civil y m d * 86400000000000)%Z
        else None
      else None
  | _ => None
  end.

(** A [to_datetime] for columns of ISO dates: any other cell is coerced to
    NaT. *)
Definition to_datetime_iso (column : list pyval) : list (option Z) :=
  map (fun x => match x with PStr s => iso_date s | _ => None end) column.

(** An argsort that meets the library's contract: a merge sort of the
    positions by their keys. *)
Definition key_le (v : list Z) (a b : nat) : Prop := (nth a v 0 ≤ nth b v 0)%Z.

#[global] Instance key_le_dec v : RelDecision (key_le v).
Proof. intros a b. unfold key_le. apply _. Defined.

#[global] Instance key_le_total v : Total (key_le v).
Proof. intros a b. unfold key_le. lia. Qed.

#[global] Instance key_le_trans v : Transitive (key_le v).
Proof. intros a b c. unfold key_le. lia. Qed.

Definition merge_argsort (v : list Z) : list nat :=
  merge_sort (key_le v) (seq 0 (length v)).

Definition month_row (revenue : Z) (start_date : string) : list pyval :=
  [PStr "P1"; PStr "revenue"; PInt revenue; PStr "M"; PStr start_date].

Definition processed_columns : list string :=
  ["partner_id"; "report_type"; "revenue"; "period_type"; "start_date"].

Definition nine_months : DataFrame :=
  {| columns := processed_columns;
     rows := [month_row 140 "2024-05-01"; month_row 100 "2024-01-01";
              month_row 110 "2024-02-01"; month_row 120 "2024-03-01";
              month_row 130 "2024-04-01"; month_row 150 "2024-06-01";
              month_row 160 "2024-07-01"; month_row 170 "2024-08-01";
              month_row 180 "2024-09-01"] |}.

Definition two_per_month : DataFrame :=
  {| columns := processed_columns;
     rows := flat_map (fun m : nat =>
               [[PStr "P1"; PStr "revenue"; PInt (Z.of_nat (100 + m)); PStr "M";
                 PStr ("2024-0" +:+ String (ascii_of_nat (49 + m)) "-01")];
                [PStr "P1"; PStr "refund"; PInt (Z.of_nat (10 + m)); PStr "M";
                 PStr ("2024-0" +:+ String (ascii_of_nat (49 + m)) "-01")]])
             (seq 0 9) |}.
Definition first_rows (n : nat) (df : DataFrame) : DataFrame :=
  {| columns := columns df; rows := take n (rows df) |}.

Definition P1_M : Path := ("data/processed", "P1_M.csv").

(** A disk that holds one series group, [data/processed/P1_M.csv]. *)
Definition disk (group : DataFrame) : world :=
  {| files := {[ P1_M := group ]};
     dirs := {[ "data/processed" ]} ∪ {[ "data/split_data" ]};
     log := [] |}.

Definition revenues (df : DataFrame) : list pyval :=
  map (fun row => default PNone (row !! 2)) (rows df).

(** Nine months of which two have no usable date. *)
Definition with_gaps : DataFrame :=
  {| columns := processed_columns;
     rows := [month_row 100 "2024-01-01"; month_row 110 "n/a";
              month_row 120 "2024-03-01"; month_row 130 "2024-04-01";
              [PStr "P1"; PStr "revenue"; PInt 140; PStr "M"; PFloat "nan"];
              month_row 150 "2024-06-01"; month_row 160 "2024-07-01";
              month_row 170 "2024-08-01"; month_row 180 "2024-09-01"] |}.

Definition start_dates (df : DataFrame) : list pyval :=
  map (fun row => default PNone (row !! 4)) (rows df).

(** ** Further worlds and statements *)

(** The world after [_process_single_file] has caught [e]. *)
Definition errored (file_path : Path) (e : exn) (w : world) : world :=
  {| files := files w; dirs := dirs w;
     log := log w ++ [(ERROR, Error_processing file_path.2 e)] |}.

(** A raw export whose columns come in another order, with one more. *)
Definition raw_shuffled : DataFrame :=
  {| columns := ["value"; "source"; "period"; "partner_id"; "report_type"];
     rows := [[PInt 100; PStr "export"; PStr "{'type': {'S': 'M'}}"; PStr "P1";
               PStr "revenue"]] |}.

Definition raw_disk : world :=
  {| files := {[ ("data/raw", "raw_data.csv") := raw_shuffled ]}; dirs := ∅; log := [] |}.

(** The three files [_process_single_file] may write for [file_path]. *)
Definition outputs (output_dir : string) (file_path : Path) : list Path :=
  [train_filename output_dir file_path;
   initial_test_filename output_dir file_path;
   final_test_filename output_dir file_path].

(** The files after the three [to_csv] calls of a split of [df]. *)
Definition written (output_dir : string) (file_path : Path) (df : DataFrame)
    (m : gmap Path DataFrame) : gmap Path DataFrame :=
  <[final_test_filename output_dir file_path := final_test_df df]>
    (<[initial_test_filename output_dir file_path := initial_test_df df]>
       (<[train_filename output_dir file_path := train_df df]> m)).

(** A disk whose group file was saved without its [start_date] column. *)
Definition no_dates : world := disk (select_columns nine_months ["partner_id"; "revenue"]).

(** A disk with two group files: nine months for [P1], five for [P2]. *)
Definition two_groups : world :=
  {| files := {[ ("data/processed", "P1_M.csv") := nine_months;
                 ("data/processed", "P2_M.csv") := first_rows 5 nine_months ]};
     dirs := {[ "data/processed" ]};
     log := [] |}.

(** ** The processing stage of [DataPreprocessor]

    [_process_data] writes two records that no other function writes. In a
    run that goes through it the log holds them among the records of the
    functions it calls, in the order they were written: an entry of that
    log is a record of either kind. *)

Inductive notice :=
| Removing_rows_with_invalid_dates (invalid_dates : nat)
| Processed_data_shape (shape : nat * nat).

Record session := {
  session_files : gmap Path DataFrame;
  session_dirs : gset string;
  session_log : list (level * (message + notice))
}.

Definition Run (A : Type) : Type := session → result A * session.

#[global] Instance Run_ret : MRet Run := fun A a s => (Ok a, s).
#[global] Instance Run_bind : MBind Run := fun A B k m s =>
  match m s with
  | (Ok a, s') => k a s'
  | (Raise e, s') => (Raise e, s')
  end.

Definition lift_result {A} (r : result A) : Run A := fun s => (r, s).

(** [logger.warning(...)], [logger.info(...)] with one of the two records. *)
Definition notify (lvl : level) (n : notice) : Run unit := fun s =>
  (Ok tt, {| session_files := session_files s; session_dirs := session_dirs s;
             session_log := session_log s ++ [(lvl, inr n)] |}).

(** A call of one of the functions above: it sees the files and the
    directories of the session, and what it logs goes to the end of the
    session's log. *)
Definition call {A} (m : M A) : Run A := fun s =>
  let '(r, w) := m {| files := session_files s; dirs := session_dirs s; log := [] |} in
  (r, {| session_files := files w; session_dirs := dirs w;
         session_log := session_log s ++ ((fun record => (record.1, inl record.2)) <$> log w) |}).

(** [df.rename(columns={old: new})] *)
Definition rename (df : DataFrame) (old new : string) : DataFrame :=
  {| columns := map (fun c => if String.eqb c old then new else c) (columns df);
     rows := rows df |}.

(** [series.apply(f)]: [f] on each cell, from the first row down. *)
Fixpoint apply {A B} (f : A → M B) (cells : list A) : M (list B) :=
  match cells with
  | [] => mret []
  | x :: cells' =>
      y ← f x;
      ys ← apply f cells';
      mret (y :: ys)
  end.

(** [df[[c1, c2]] = pd.DataFrame(pairs, index=df.index)]: the frame made of
    a list of pairs has two columns, the frame made of the empty list has
    none, and pandas refuses to set two columns from no column
    (ValueError: Columns must be same length as key). The cells set are
    the Python objects of the pairs: the dtype pandas picks for a column
    is not part of a table here. *)
Definition setitem_pairs (df : DataFrame) (c1 c2 : string) (pairs : list (pyval * pyval))
  : result DataFrame :=
  match pairs with
  | [] => Raise ValueError
  | _ => Ok (setitem (setitem df c1 pairs.*1) c2 pairs.*2)
  end.

(** [df.drop(columns=[col])] *)
Definition drop_column (df : DataFrame) (col : string) : result DataFrame :=
  match index_of col (columns df) with
  | Some i => Ok {| columns := delete i (columns df); rows := delete i <$> rows df |}
  | None => Raise KeyError
  end.

(** [isna] of a cell of a datetime column: NaT. *)
Definition isna (x : pyval) : bool := bool_decide (datetime_key x = None).

(** [df.dropna(subset=[col])] on a datetime column. *)
Definition dropna (df : DataFrame) (col : string) : result DataFrame :=
  match index_of col (columns df) with
  | Some i =>
      Ok {| columns := columns df;
            rows := filter (fun row => isna (default PNone (row !! i)) = false) (rows df) |}
  | None => Raise KeyError
  end.

Section process_data.
Variable to_datetime : list pyval → list (option Z).

(** [DataPreprocessor._process_data], from [self.df] to the [self.df] it
    leaves. *)
Definition _process_data (df : DataFrame) : Run DataFrame :=
  let df := rename df "value" "revenue" in
  period ← lift_result (getitem df "period");
  period_data ← call (apply DataPreprocessor._parse_period period);
  df ← lift_result (setitem_pairs df "period_type" "start_date" period_data);
  df ← lift_result (drop_column df "period");
  column ← lift_result (getitem df "start_date");
  let df := setitem df "start_date" (datetime_cell <$> to_datetime column) in
  start_date ← lift_result (getitem df "start_date");
  let invalid_dates := length (filter (fun x => isna x = true) start_date) in
  df ← (if bool_decide (0 < invalid_dates) then
          notify WARNING (Removing_rows_with_invalid_dates invalid_dates);;
          lift_result (dropna df "start_date")
        else mret df);
  notify INFO (Processed_data_shape (len df, length (columns df)));;
  mret df.
End process_data.

(** A raw table as [_load_and_validate_data] returns it: a monthly period,
    a period that is no JSON, a period without a start date, a quarter. *)
Definition raw_periods : DataFrame :=
  {| columns := ["partner_id"; "period"; "report_type"; "value"];
     rows := [[PStr "P1"; PStr "{'type': {'S': 'M'}, 'start_date': {'S': '2024-01-01'}}";
               PStr "revenue"; PInt 100];
              [PStr "P1"; PStr "2024-02"; PStr "revenue"; PInt 110];
              [PStr "P1"; PStr "{'type': {'S': 'M'}}"; PStr "revenue"; PInt 120];
              [PStr "P2"; PStr "{'type': {'S': 'Q'}, 'start_date': {'S': '2024-04-01'}}";
               PStr "revenue"; PInt 400]] |}.

Definition fresh : session := {| session_files := ∅; session_dirs := ∅; session_log := [] |}.

(** *** Statements about the processing stage *)

Definition cell (i : nat) (row : list pyval) : pyval := default PNone (row !! i).

(** What [_parse_period] returns for a cell and what it logs. *)
Definition parsed (period : pyval) : pyval * pyval :=
  match (DataPreprocessor._parse_period period quiet).1 with
  | Ok p => p
  | Raise _ => (PNone, PNone)
  end.
Definition parse_log (period : pyval) : list (level * message) :=
  log (DataPreprocessor._parse_period period quiet).2.

(** The pairs [_parse_period] returns for the [period] column of a raw
    table, a pair per row. *)
Definition parsed_periods (df : DataFrame) : list (pyval * pyval) :=
  map (fun row => parsed (cell 1 row)) (rows df).

(** The row the stage makes of a raw row [partner_id, period, report_type,
    value] and of the date [to_datetime] made of its start date, if it made
    one. *)
Definition processed_row (row : list pyval) (date : option Z) : option (list pyval) :=
  t ← date;
  Some [cell 0 row; cell 2 row; cell 3 row; (parsed (cell 1 row)).1; PTimestamp t].

(** The records the stage adds to the log for a raw table of which
    [invalid_dates] rows are removed and [kept] are left. *)
Definition processing_log (df : DataFrame) (invalid_dates kept : nat)
  : list (level * (message + notice)) :=
  ((fun record : level * message => (record.1, inl record.2))
     <$> concat (map (fun row => parse_log (cell 1 row)) (rows df)))
  ++ (if bool_decide (0 < invalid_dates)
      then [(WARNING, inr (Removing_rows_with_invalid_dates invalid_dates))] else [])
  ++ [(INFO, inr (Processed_data_shape (kept, 5)))].

(** A raw file that holds its header and no row. *)
Definition header_only : DataFrame :=
  {| columns := ["partner_id"; "period"; "report_type"; "value"]; rows := [] |}.

(** * Properties *)

(** ** The decoder's budget is never used up *)

Lemma skip_ws_length s : String.length (skip_ws s) ≤ String.length s.
Proof.
  induction s as [|c s IH]; simpl; [lia|].
  destruct (is_ws c); simpl; lia.
Qed.

Lemma prepend_length chunk r s t rest :
  (∀ t' rest', r = Ok (t', rest') → String.length rest' < String.length s) →
  prepend chunk r = Ok (t, rest) → String.length rest < String.length s.
Proof.
  intros H. destruct r as [[t' rest']|e]; simpl; [|discriminate].
  intros [= _ <-]. eauto.
Qed.

Lemma scanstring_length s t rest :
  scanstring s = Ok (t, rest) → String.length rest < String.length s.
Proof.
  remember (String.length s) as n eqn:Hn.
  revert s Hn t rest. induction n as [n IH] using lt_wf_ind.
  intros s Hn t rest.
  assert (step : ∀ chunk X, String.length X < n →
            prepend chunk (scanstring X) = Ok (t, rest) → String.length rest < n).
  { intros chunk X HX H. eapply (prepend_length _ _ X) in H; [lia|].
    intros t' rest' E. eapply IH in E; [exact E|exact HX|reflexivity]. }
  destruct s as [|c s]; simpl; [discriminate|].
  destruct (code c =? 34)%N. { intros [= _ <-]. simpl in Hn. lia. }
  destruct (code c =? 92)%N.
  2:{ destruct (code c <? 32)%N; [discriminate|]. apply step. simpl in Hn. lia. }
  destruct s as [|esc s]; [discriminate|].
  destruct (code esc =? 117)%N.
  2:{ destruct (BACKSLASH esc); [|discriminate]. apply step. simpl in Hn. lia. }
  destruct s as [|h1 [|h2 [|h3 [|h4 s]]]]; try discriminate.
  destruct (hex4 h1 h2 h3 h4); [|discriminate].
  simpl in Hn.
  destruct s as [|b [|u s]]; try (apply step; simpl in Hn |- *; lia).
  destruct (is_high_surrogate n0 && (code b =? 92)%N && (code u =? 117)%N);
    [|apply step; simpl in Hn |- *; lia].
  destruct s as [|g1 [|g2 [|g3 [|g4 s]]]]; try discriminate.
  destruct (hex4 g1 g2 g3 g4); [|discriminate].
  destruct (is_low_surrogate n1); apply step; simpl in Hn |- *; lia.
Qed.

Lemma strip_prefix_length word s r :
  strip_prefix word s = Some r → String.length r + String.length word = String.length s.
Proof.
  revert s. induction word as [|a word IH]; intros [|b s]; simpl; try discriminate.
  - intros [= <-]. reflexivity.
  - intros [= <-]. simpl. lia.
  - destruct (Ascii.eqb a b); [|discriminate]. intros H. apply IH in H. lia.
Qed.

Lemma span_digits_length s ds r :
  span_digits s = (ds, r) → String.length r ≤ String.length s.
Proof.
  revert ds r. induction s as [|c s IH]; simpl; intros ds r.
  - intros [= _ <-]. reflexivity.
  - destruct (is_digit c).
    + destruct (span_digits s) as [ds' r'] eqn:E. intros [= _ <-].
      specialize (IH _ _ eq_refl). lia.
    + intros [= _ <-]. reflexivity.
Qed.

Lemma match_integer_length s int r :
  match_integer s = Some (int, r) → String.length r < String.length s.
Proof.
  destruct s as [|c s]; simpl; [discriminate|].
  destruct (code c =? 48)%N. { intros [= _ <-]. lia. }
  destruct (is_digit c); [|discriminate].
  destruct (span_digits s) as [ds r'] eqn:E. intros [= _ <-].
  apply span_digits_length in E. lia.
Qed.

Lemma match_frac_length s frac r :
  match_frac s = (frac, r) → String.length r ≤ String.length s.
Proof.
  destruct s as [|c s]; simpl. { intros [= _ <-]. reflexivity. }
  destruct (code c =? 46)%N; [|intros [= _ <-]; reflexivity].
  destruct (span_digits s) as [[|d ds] r'] eqn:E; intros [= _ <-]; simpl; [lia|].
  apply span_digits_length in E. lia.
Qed.

Lemma match_exp_length s exp r :
  match_exp s = (exp, r) → String.length r ≤ String.length s.
Proof.
  destruct s as [|c s]; simpl. { intros [= _ <-]. reflexivity. }
  destruct ((code c =? 101)%N || (code c =? 69)%N); [|intros [= _ <-]; reflexivity].
  destruct s as [|sg s]. { intros [= _ <-]. reflexivity. }
  destruct ((code sg =? 45)%N || (code sg =? 43)%N).
  - destruct (span_digits s) as [[|d ds] r'] eqn:E; intros [= _ <-]; simpl; [lia|].
    apply span_digits_length in E. lia.
  - destruct (span_digits (String sg s)) as [[|d ds] r'] eqn:E; intros [= _ <-];
      simpl; [lia|].
    apply span_digits_length in E. simpl in E. lia.
Qed.

Lemma match_number_length s num r :
  match_number s = Some (num, r) → String.length r < String.length s.
Proof.
  unfold match_number.
  set (p := match s with
            | String c rest => if (code c =? 45)%N then (true, rest) else (false, s)
            | EmptyString => (false, s)
            end).
  assert (Hp : String.length p.2 ≤ String.length s).
  { subst p. destruct s as [|c s]; simpl; [lia|].
    destruct (code c =? 45)%N; simpl; lia. }
  destruct p as [neg s1]. simpl in Hp.
  destruct (match_integer s1) as [[int s2]|] eqn:E1; [|discriminate].
  destruct (match_frac s2) as [frac s3] eqn:E2.
  destruct (match_exp s3) as [exp s4] eqn:E3.
  apply match_integer_length in E1. apply match_frac_length in E2.
  apply match_exp_length in E3.
  destruct frac, exp; intros [= _ <-]; lia.
Qed.

Lemma prepend_raise chunk r e :
  (∀ e', r = Raise e' → e' = JSONDecodeError) →
  prepend chunk r = Raise e → e = JSONDecodeError.
Proof.
  intros H. destruct r as [[t' rest']|e']; simpl; [discriminate|].
  intros [= <-]. eauto.
Qed.

Lemma scanstring_raise s e : scanstring s = Raise e → e = JSONDecodeError.
Proof.
  remember (String.length s) as n eqn:Hn.
  revert s Hn e. induction n as [n IH] using lt_wf_ind.
  intros s Hn e.
  assert (step : ∀ chunk X, String.length X < n →
            prepend chunk (scanstring X) = Raise e → e = JSONDecodeError).
  { intros chunk X HX H. eapply prepend_raise in H; [exact H|].
    intros e' E. eapply IH in E; [exact E|exact HX|reflexivity]. }
  assert (stop : @Raise (string * string) JSONDecodeError = Raise e → e = JSONDecodeError)
    by (intros [= <-]; reflexivity).
  destruct s as [|c s]; simpl; [exact stop|].
  destruct (code c =? 34)%N; [discriminate|].
  destruct (code c =? 92)%N.
  2:{ destruct (code c <? 32)%N; [exact stop|]. apply step. simpl in Hn. lia. }
  destruct s as [|esc s]; [exact stop|].
  destruct (code esc =? 117)%N.
  2:{ destruct (BACKSLASH esc); [|exact stop]. apply step. simpl in Hn. lia. }
  destruct s as [|h1 [|h2 [|h3 [|h4 s]]]]; try exact stop.
  destruct (hex4 h1 h2 h3 h4); [|exact stop].
  simpl in Hn.
  destruct s as [|b [|u s]]; try (apply step; simpl in Hn |- *; lia).
  destruct (is_high_surrogate n0 && (code b =? 92)%N && (code u =? 117)%N);
    [|apply step; simpl in Hn |- *; lia].
  destruct s as [|g1 [|g2 [|g3 [|g4 s]]]]; try exact stop.
  destruct (hex4 g1 g2 g3 g4); [|exact stop].
  destruct (is_low_surrogate n1); apply step; simpl in Hn |- *; lia.
Qed.

Lemma within_budget_shorter s s' r :
  String.length s ≤ String.length s' → within_budget s r → within_budget s' r.
Proof. destruct r as [[v rest]|e]; simpl; [lia|auto]. Qed.

Lemma skip_ws_cons s c rest :
  skip_ws s = String c rest → String.length rest < String.length s.
Proof. intros H. pose proof (skip_ws_length s) as L. rewrite H in L. simpl in L. lia. Qed.

#[local] Opaque strip_prefix match_number skip_ws scanstring.

Lemma decoder_budget fuel :
  (∀ s, 2 * String.length s < fuel → within_budget s (scan_once fuel s)) ∧
  (∀ s pairs, 2 * String.length s < fuel → within_budget s (object_loop fuel s pairs)) ∧
  (∀ s values, 2 * String.length s + 1 < fuel → within_budget s (array_loop fuel s values)).
Proof.
  induction fuel as [|fuel (IHscan & IHobj & IHarr)].
  { repeat split; intros; lia. }
  repeat split.
  - (* scan_once *)
    intros s Hs. destruct s as [|c s]; simpl; [reflexivity|].
    simpl in Hs.
    destruct (Ascii.eqb c DQUOTE).
    { destruct (scanstring s) as [[str r]|e] eqn:E; simpl.
      - apply scanstring_length in E. lia.
      - eapply scanstring_raise, E. }
    destruct (Ascii.eqb c "{").
    { destruct (skip_ws s) as [|c1 r1] eqn:E; [reflexivity|].
      apply skip_ws_cons in E.
      destruct (Ascii.eqb c1 "}"); [simpl; lia|].
      destruct (Ascii.eqb c1 DQUOTE); [|reflexivity].
      eapply within_budget_shorter; [|apply IHobj]; simpl; lia. }
    destruct (Ascii.eqb c "[").
    { destruct (skip_ws s) as [|c1 r1] eqn:E.
      - eapply within_budget_shorter; [|apply IHarr]; simpl; lia.
      - pose proof (skip_ws_length s) as L. rewrite E in L.
        destruct (Ascii.eqb c1 "]"); [simpl in *; lia|].
        eapply within_budget_shorter; [|apply IHarr]; simpl in *; lia. }
    destruct (strip_prefix "null" (String c s)) as [r|] eqn:E1.
    { apply strip_prefix_length in E1. simpl in *. lia. }
    destruct (strip_prefix "true" (String c s)) as [r|] eqn:E2.
    { apply strip_prefix_length in E2. simpl in *. lia. }
    destruct (strip_prefix "false" (String c s)) as [r|] eqn:E3.
    { apply strip_prefix_length in E3. simpl in *. lia. }
    destruct (match_number (String c s)) as [[num r]|] eqn:E4.
    { apply match_number_length in E4. simpl in *. lia. }
    destruct (strip_prefix "NaN" (String c s)) as [r|] eqn:E5.
    { apply strip_prefix_length in E5. simpl in *. lia. }
    destruct (strip_prefix "Infinity" (String c s)) as [r|] eqn:E6.
    { apply strip_prefix_length in E6. simpl in *. lia. }
    destruct (strip_prefix "-Infinity" (String c s)) as [r|] eqn:E7.
    { apply strip_prefix_length in E7. simpl in *. lia. }
    reflexivity.
  - (* object_loop *)
    intros s pairs Hs. simpl.
    destruct (scanstring s) as [[key s1]|e] eqn:E; simpl;
      [|eapply scanstring_raise, E].
    apply scanstring_length in E.
    destruct (skip_ws s1) as [|c s2] eqn:E1; [reflexivity|].
    apply skip_ws_cons in E1.
    destruct (Ascii.eqb c ":"); [|reflexivity].
    pose proof (skip_ws_length s2) as L2.
    pose proof (IHscan (skip_ws s2) ltac:(lia)) as Hv.
    destruct (scan_once fuel (skip_ws s2)) as [[value s3]|e]; simpl in Hv |- *;
      [|exact Hv].
    destruct (skip_ws s3) as [|c1 s4] eqn:E3; [reflexivity|].
    apply skip_ws_cons in E3.
    destruct (Ascii.eqb c1 "}"); [simpl; lia|].
    destruct (Ascii.eqb c1 ","); [|reflexivity].
    destruct (skip_ws s4) as [|q s5] eqn:E4; [reflexivity|].
    apply skip_ws_cons in E4.
    destruct (Ascii.eqb q DQUOTE); [|reflexivity].
    eapply within_budget_shorter; [|apply IHobj]; lia.
  - (* array_loop *)
    intros s values Hs. simpl.
    pose proof (IHscan s ltac:(lia)) as Hv.
    destruct (scan_once fuel s) as [[value s1]|e]; simpl in Hv |- *; [|exact Hv].
    destruct (skip_ws s1) as [|c s2] eqn:E1; [reflexivity|].
    apply skip_ws_cons in E1.
    destruct (Ascii.eqb c "]"); [simpl; lia|].
    destruct (Ascii.eqb c ","); [|reflexivity].
    pose proof (skip_ws_length s2) as L2.
    eapply within_budget_shorter; [|apply IHarr]; lia.
Qed.

#[local] Transparent strip_prefix match_number skip_ws scanstring.

(** [json.loads] either returns a value or raises [JSONDecodeError]. *)
Lemma json_loads_raise s e : json_loads s = Raise e → e = JSONDecodeError.
Proof.
  unfold json_loads.
  destruct (strip_prefix BOM s); [intros [= <-]; reflexivity|].
  pose proof (proj1 (decoder_budget (S (2 * String.length s))) (skip_ws s)) as H.
  pose proof (skip_ws_length s) as L. specialize (H ltac:(lia)).
  destruct (scan_once _ _) as [[obj rest]|e'].
  - simpl. destruct (skip_ws rest); [discriminate|intros [= <-]; reflexivity].
  - simpl in *. intros [= <-]. exact H.
Qed.

Lemma json_loads_RecursionError s : json_loads s ≠ Raise RecursionError.
Proof. intros H. apply json_loads_raise in H. discriminate. Qed.

(** ** Period strings *)

Lemma replace_char_app old new s t :
  replace_char old new (s +:+ t) = replace_char old new s +:+ replace_char old new t.
Proof. induction s as [|c s IH]; simpl; [reflexivity|]. by rewrite IH. Qed.

Lemma code_inj_39 c : (code c =? 39)%N = Ascii.eqb c "'".
Proof.
  destruct (Ascii.eqb_spec c "'") as [->|Hne]; [reflexivity|].
  apply N.eqb_neq. intros H. apply Hne.
  rewrite <- (ascii_N_embedding c). unfold code in H. by rewrite H.
Qed.

Lemma replace_char_plain new s :
  plain_text s = true → replace_char "'" new s = s.
Proof.
  induction s as [|c s IH]; simpl; [reflexivity|].
  rewrite !andb_true_iff, !negb_true_iff. intros ((((_ & H39) & _) & _) & Hs).
  rewrite code_inj_39 in H39. rewrite H39, IH; auto.
Qed.

Lemma replace_char_blank new s :
  blank s = true → replace_char "'" new s = s.
Proof.
  induction s as [|c s IH]; simpl; [reflexivity|].
  rewrite andb_true_iff. intros [Hc Hs]. rewrite IH by exact Hs.
  destruct (Ascii.eqb_spec c "'") as [->|_]; [discriminate|reflexivity].
Qed.

Lemma skip_ws_blank sp s : blank sp = true → skip_ws (sp +:+ s) = skip_ws s.
Proof.
  induction sp as [|c sp IH]; simpl; [reflexivity|].
  rewrite andb_true_iff. intros [-> Hs]. auto.
Qed.

Lemma scanstring_plain T rest :
  plain_text T = true → scanstring (T +:+ String DQUOTE rest) = Ok (T, rest).
Proof.
  induction T as [|c T IH]; simpl; [reflexivity|].
  rewrite !andb_true_iff, !negb_true_iff. intros ((((H34 & _) & H92) & H32) & HT).
  rewrite H34, H92. apply N.leb_le in H32.
  destruct (N.ltb_spec (code c) 32) as [?|_]; [lia|].
  rewrite IH by exact HT. reflexivity.
Qed.

Lemma period_text_normalised q sp T D :
  q = "'"%char ∨ q = DQUOTE →
  blank sp = true → plain_text T = true → plain_text D = true →
  replace_char "'" DQUOTE (period_text q sp "S" T D) = period_text DQUOTE sp "S" T D.
Proof.
  intros Hq Hsp HT HD. unfold period_text. cbn zeta.
  assert (Hq' : (if Ascii.eqb q "'" then DQUOTE else q) = DQUOTE)
    by (destruct Hq as [-> | ->]; reflexivity).
  repeat first
    [ rewrite replace_char_app
    | rewrite (replace_char_blank _ sp Hsp)
    | rewrite (replace_char_plain _ T HT)
    | rewrite (replace_char_plain _ D HD)
    | progress (cbn [replace_char]; rewrite ?Hq') ].
  reflexivity.
Qed.

Lemma scan_once_text fuel T rest :
  plain_text T = true →
  scan_once (S fuel) (String DQUOTE "" +:+ T +:+ String DQUOTE "" +:+ rest)
  = Ok (PStr T, rest).
Proof.
  intros HT.
  change (scan_once (S fuel) (String DQUOTE (T +:+ String DQUOTE rest)) = Ok (PStr T, rest)).
  simpl. rewrite scanstring_plain by exact HT. reflexivity.
Qed.

Lemma scan_once_object fuel rest :
  scan_once (S fuel) ("{" +:+ String DQUOTE "" +:+ rest) = object_loop fuel rest [].
Proof. reflexivity. Qed.

Lemma object_loop_last fuel key sp s pairs value rest :
  plain_text key = true → blank sp = true → skip_ws s = s →
  scan_once fuel s = Ok (value, "}" +:+ rest) →
  object_loop (S fuel) (key +:+ String DQUOTE "" +:+ ":" +:+ sp +:+ s) pairs
  = Ok (PDict (dict_of_pairs (pairs ++ [(key, value)])), rest).
Proof.
  intros Hkey Hsp Hs Hvalue.
  change (key +:+ String DQUOTE "" +:+ ":" +:+ sp +:+ s)
    with (key +:+ String DQUOTE (String ":" (sp +:+ s))).
  simpl. rewrite scanstring_plain by exact Hkey. simpl.
  rewrite skip_ws_blank by exact Hsp. rewrite Hs, Hvalue. reflexivity.
Qed.

Lemma object_loop_more fuel key sp s pairs value sp' rest :
  plain_text key = true → blank sp = true → skip_ws s = s → blank sp' = true →
  scan_once fuel s = Ok (value, "," +:+ sp' +:+ String DQUOTE "" +:+ rest) →
  object_loop (S fuel) (key +:+ String DQUOTE "" +:+ ":" +:+ sp +:+ s) pairs
  = object_loop fuel rest (pairs ++ [(key, value)]).
Proof.
  intros Hkey Hsp Hs Hsp' Hvalue.
  change (key +:+ String DQUOTE "" +:+ ":" +:+ sp +:+ s)
    with (key +:+ String DQUOTE (String ":" (sp +:+ s))).
  simpl. rewrite scanstring_plain by exact Hkey. simpl.
  rewrite skip_ws_blank by exact Hsp. rewrite Hs, Hvalue.
  change ("," +:+ sp' +:+ String DQUOTE "" +:+ rest)
    with (String "," (sp' +:+ String DQUOTE rest)).
  simpl. rewrite skip_ws_blank by exact Hsp'. reflexivity.
Qed.

(** The wrapper [{"S": T}] that carries one payload. *)
Lemma scan_once_wrapper fuel sp T rest :
  blank sp = true → plain_text T = true →
  scan_once (S (S (S fuel)))
    ("{" +:+ String DQUOTE "" +:+ "S" +:+ String DQUOTE "" +:+ ":" +:+ sp +:+
     String DQUOTE "" +:+ T +:+ String DQUOTE "" +:+ "}" +:+ rest)
  = Ok (PDict [("S", PStr T)], rest).
Proof.
  intros Hsp HT. rewrite scan_once_object.
  erewrite object_loop_last; [reflexivity|reflexivity|exact Hsp|reflexivity|].
  apply scan_once_text, HT.
Qed.

Lemma json_loads_period_text sp T D :
  blank sp = true → plain_text T = true → plain_text D = true →
  json_loads (period_text DQUOTE sp "S" T D) =
  Ok (PDict [("type", PDict [("S", PStr T)]); ("start_date", PDict [("S", PStr D)])]).
Proof.
  intros Hsp HT HD. unfold json_loads.
  set (n := String.length (period_text DQUOTE sp "S" T D)).
  assert (Hn : 3 ≤ n) by (subst n; simpl; lia).
  replace (S (2 * n)) with (6 + (2 * n - 5)) by lia.
  generalize (2 * n - 5). clear n Hn. intros k.
  change (strip_prefix BOM (period_text DQUOTE sp "S" T D)) with (@None string).
  change (skip_ws (period_text DQUOTE sp "S" T D)) with (period_text DQUOTE sp "S" T D).
  cbv beta iota. unfold period_text. cbv zeta.
  change (6 + k) with (S (S (S (S (S (S k)))))).
  rewrite scan_once_object.
  erewrite object_loop_more; [|reflexivity|exact Hsp|reflexivity|exact Hsp|].
  2:{ apply scan_once_wrapper; assumption. }
  erewrite object_loop_last; [|reflexivity|exact Hsp|reflexivity|].
  2:{ apply scan_once_wrapper; assumption. }
  reflexivity.
Qed.

Lemma py_get_raise obj key default e :
  py_get obj key default = Raise e → e = AttributeError.
Proof.
  destruct obj; simpl; try (intros [= <-]; reflexivity).
  destruct (dict_lookup items key); discriminate.
Qed.

(** What [_parse_period] does with a string, by what [json.loads] makes of
    the text once the single quotes are replaced. *)
Lemma parse_period_undecodable s e w :
  json_loads (replace_char "'" DQUOTE s) = Raise e →
  DataPreprocessor._parse_period (PStr s) w
  = (Ok (PNone, PNone), warned (PStr s) JSONDecodeError w).
Proof.
  intros H. pose proof (json_loads_raise _ _ H) as ->.
  unfold DataPreprocessor._parse_period, try_except, lift. simpl.
  rewrite H. reflexivity.
Qed.

Lemma parse_period_decoded s v w :
  json_loads (replace_char "'" DQUOTE s) = Ok v →
  DataPreprocessor._parse_period (PStr s) w =
  match
    type ← py_get v "type" (PDict []);
    period_type ← py_get type "S" PNone;
    start ← py_get v "start_date" (PDict []);
    start_date ← py_get start "S" PNone;
    Ok (period_type, start_date)
  with
  | Ok p => (Ok p, w)
  | Raise _ => (Ok (PNone, PNone), warned (PStr s) AttributeError w)
  end.
Proof.
  intros H. unfold DataPreprocessor._parse_period, try_except, lift. simpl.
  rewrite H. simpl.
  destruct (py_get v "type" (PDict [])) as [type|e] eqn:E1; simpl;
    [|apply py_get_raise in E1 as ->; reflexivity].
  destruct (py_get type "S" PNone) as [period_type|e] eqn:E2; simpl;
    [|apply py_get_raise in E2 as ->; reflexivity].
  destruct (py_get v "start_date" (PDict [])) as [start|e] eqn:E3; simpl;
    [|apply py_get_raise in E3 as ->; reflexivity].
  destruct (py_get start "S" PNone) as [start_date|e] eqn:E4; simpl;
    [|apply py_get_raise in E4 as ->; reflexivity].
  reflexivity.
Qed.

Lemma parse_period_not_str x w :
  (∀ s, x ≠ PStr s) →
  DataPreprocessor._parse_period x w = (Ok (PNone, PNone), warned x AttributeError w).
Proof. intros H. destruct x; try reflexivity. destruct (H s eq_refl). Qed.

Lemma classic_str x : (∃ s, x = PStr s) ∨ (∀ s, x ≠ PStr s).
Proof. destruct x; try (right; discriminate). left. eauto. Qed.

(** A call of [_parse_period] either changes nothing or logs one warning;
    when it logs, both components are null. *)
Lemma parse_period_cases x w :
  (∃ p, DataPreprocessor._parse_period x w = (Ok p, w)) ∨
  (∃ e, DataPreprocessor._parse_period x w = (Ok (PNone, PNone), warned x e w)).
Proof.
  destruct (classic_str x) as [[s ->]|Hx].
  2:{ right. eexists. apply parse_period_not_str, Hx. }
  destruct (json_loads (replace_char "'" DQUOTE s)) as [v|e] eqn:E.
  - rewrite (parse_period_decoded _ _ _ E).
    destruct (_ ≫= _); [left|right]; eauto.
  - right. eexists. eapply parse_period_undecodable, E.
Qed.

(** C5, as amended: for every period string of the form
    [{'type': {'S': T}, 'start_date': {'S': D}}], written with single or
    with double quotes and with any blanks [sp] after the colons and the
    comma, in which the tag is [S] and the payloads [T] and [D] hold no
    quote of either kind, no backslash and no control character,
    [_parse_period] returns exactly [(T, D)] and logs nothing. *)
Theorem parse_period_valid q sp T D w :
  q = "'"%char ∨ q = DQUOTE →
  blank sp = true → plain_text T = true → plain_text D = true →
  DataPreprocessor._parse_period (PStr (period_text q sp "S" T D)) w
  = (Ok (PStr T, PStr D), w).
Proof.
  intros Hq Hsp HT HD.
  rewrite (parse_period_decoded _
             (PDict [("type", PDict [("S", PStr T)]);
                     ("start_date", PDict [("S", PStr D)])]) w); [reflexivity|].
  rewrite period_text_normalised by assumption.
  apply json_loads_period_text; assumption.
Qed.

Lemma parse_period_valid_witness :
  DataPreprocessor._parse_period
    (PStr "{'type': {'S': 'M'}, 'start_date': {'S': '2024-01-01'}}") quiet
  = (Ok (PStr "M", PStr "2024-01-01"), quiet).
Proof.
  exact (parse_period_valid "'" " " "M" "2024-01-01" quiet
           (or_introl eq_refl) eq_refl eq_refl eq_refl).
Defined.

(** C5 as stated fails on the code: with a tag other than [S] the payloads
    are not found, and an apostrophe inside a double-quoted payload is
    turned into a closing quote before decoding; both give
    [(None, None)]. *)
Lemma parse_period_valid_counterexample :
  (DataPreprocessor._parse_period
     (PStr "{'type': {'N': 'M'}, 'start_date': {'N': '2024-01-01'}}") quiet).1
  = Ok (PNone, PNone)
  ∧ period_text DQUOTE " " "S" "Q1'24" "2024-01-01"
    = replace_char "!" DQUOTE "{!type!: {!S!: !Q1'24!}, !start_date!: {!S!: !2024-01-01!}}"
  ∧ (DataPreprocessor._parse_period
       (PStr (period_text DQUOTE " " "S" "Q1'24" "2024-01-01")) quiet).1
    = Ok (PNone, PNone).
Proof. repeat split; vm_compute; reflexivity. Qed.




(** C2, as amended: whenever [_parse_period] catches a failure (it then
    logs a warning) it returns [(None, None)]; a key that is only missing is
    no failure: that component is [None] and the other one is still taken
    from its own key. *)
Theorem parse_period_all_or_nothing :
  (∀ x w, log (DataPreprocessor._parse_period x w).2 ≠ log w →
     (DataPreprocessor._parse_period x w).1 = Ok (PNone, PNone)) ∧
  (∀ s w items d, json_loads (replace_char "'" DQUOTE s) = Ok (PDict items) →
     dict_lookup items "type" = None →
     dict_lookup items "start_date" = Some (PDict d) →
     DataPreprocessor._parse_period (PStr s) w
     = (Ok (PNone, default PNone (dict_lookup d "S")), w)) ∧
  (∀ s w items d, json_loads (replace_char "'" DQUOTE s) = Ok (PDict items) →
     dict_lookup items "type" = Some (PDict d) →
     dict_lookup items "start_date" = None →
     DataPreprocessor._parse_period (PStr s) w
     = (Ok (default PNone (dict_lookup d "S"), PNone), w)).
Proof.
  repeat split.
  - intros x w. destruct (parse_period_cases x w) as [[p H]|[e H]]; rewrite H; simpl.
    + intros Hlog. destruct (Hlog eq_refl).
    + reflexivity.
  - intros s w items d Hv Htype Hstart. rewrite (parse_period_decoded _ _ _ Hv).
    simpl. rewrite Htype, Hstart. simpl. destruct (dict_lookup d "S"); reflexivity.
  - intros s w items d Hv Htype Hstart. rewrite (parse_period_decoded _ _ _ Hv).
    simpl. rewrite Htype, Hstart. simpl. destruct (dict_lookup d "S"); reflexivity.
Qed.

Lemma parse_period_all_or_nothing_witness :
  (DataPreprocessor._parse_period (PStr "not json") quiet).1 = Ok (PNone, PNone)
  ∧ DataPreprocessor._parse_period (PStr "{'start_date': {'S': '2024-03-01'}}") quiet
    = (Ok (PNone, PStr "2024-03-01"), quiet).
Proof.
  destruct parse_period_all_or_nothing as (Hfail & Hdate & _).
  split.
  - apply Hfail. vm_compute. discriminate.
  - apply (Hdate _ quiet [("start_date", PDict [("S", PStr "2024-03-01")])]
             [("S", PStr "2024-03-01")]); reflexivity.
Defined.

(** C2 as stated fails on the code: with the key [type] missing the pair
    is populated on one side only. *)
Lemma parse_period_all_or_nothing_counterexample :
  DataPreprocessor._parse_period (PStr "{'start_date': {'S': '2024-01-01'}}") quiet
  = (Ok (PNone, PStr "2024-01-01"), quiet).
Proof. reflexivity. Qed.

(** ** Schema validation *)

Lemma index_of_Some col cols : is_Some (index_of col cols) ↔ col ∈ cols.
Proof.
  induction cols as [|c cols IH]; simpl.
  - split; [intros [? [=]]|intros H; inversion H].
  - destruct (String.eqb_spec c col) as [->|Hne].
    + split; [intros _; left|eauto].
    + rewrite fmap_is_Some, IH. split; [by right|].
      intros H. inversion H; subst; [done|assumption].
Qed.

Lemma has_column_true df col : has_column df col = true ↔ col ∈ columns df.
Proof. unfold has_column. rewrite bool_decide_eq_true. apply index_of_Some. Qed.

Lemma forallb_false {A} (p : A → bool) (l : list A) :
  forallb p l = false ↔ ∃ x, x ∈ l ∧ p x = false.
Proof.
  induction l as [|a l IH]; simpl.
  - split; [discriminate|]. intros (x & Hx & _). inversion Hx.
  - rewrite andb_false_iff, IH. split.
    + intros [Ha|(x & Hx & Hp)]; [exists a|exists x]; split; auto; by constructor.
    + intros (x & Hx & Hp). inversion Hx; subst; eauto.
Qed.

Lemma missing_column df :
  forallb (has_column df) DataPreprocessor.required_columns = false
  ↔ ∃ col, col ∈ DataPreprocessor.required_columns ∧ col ∉ columns df.
Proof.
  rewrite forallb_false. apply exist_proper. intros col.
  rewrite <- has_column_true, not_true_iff_false. reflexivity.
Qed.

Lemma load_and_validate_missing w file_path df :
  files w !! file_path = Some df →
  forallb (has_column df) DataPreprocessor.required_columns = false →
  DataPreprocessor._load_and_validate_data file_path w
  = (Raise ValueError,
     {| files := files w; dirs := dirs w;
        log := log w ++ [(ERROR, Error_loading_data ValueError)] |}).
Proof.
  intros Hfile Hmiss.
  unfold DataPreprocessor._load_and_validate_data, try_except, read_csv, mbind, M_bind.
  rewrite Hfile, Hmiss. reflexivity.
Qed.

Lemma load_and_validate_complete w file_path df :
  files w !! file_path = Some df →
  forallb (has_column df) DataPreprocessor.required_columns = true →
  DataPreprocessor._load_and_validate_data file_path w
  = (Ok (select_columns df DataPreprocessor.required_columns),
     {| files := files w; dirs := dirs w;
        log := log w ++ [(INFO, Loaded_rows (length (rows df)) file_path)] |}).
Proof.
  intros Hfile Hall.
  unfold DataPreprocessor._load_and_validate_data, try_except, read_csv, mbind, M_bind.
  rewrite Hfile, Hall. reflexivity.
Qed.

(** C9: for a readable input, [_load_and_validate_data] raises exactly when
    one of the required columns (the first of them is named [partner_id] in
    the code) is absent; the error is then a [ValueError] that leaves
    [preprocess_data] at once: whatever the later stages [_process_data]
    and [split_and_save] are, they never run, no file is written and the
    only trace is the error record in the log. *)
Theorem schema_validation w file_path df :
  files w !! file_path = Some df →
  ((∃ col, col ∈ DataPreprocessor.required_columns ∧ col ∉ columns df)
   ↔ ∃ e w', DataPreprocessor._load_and_validate_data file_path w = (Raise e, w'))
  ∧ ((∃ col, col ∈ DataPreprocessor.required_columns ∧ col ∉ columns df) →
     ∀ _process_data split_and_save output_dir,
       preprocess_data _process_data split_and_save file_path output_dir w
       = (Raise ValueError,
          {| files := files w; dirs := {[output_dir]} ∪ dirs w;
             log := log w ++ [(ERROR, Error_loading_data ValueError)] |})).
Proof.
  intros Hfile. rewrite <- missing_column.
  destruct (forallb (has_column df) DataPreprocessor.required_columns) eqn:Hall.
  - split; [split; [discriminate|]|discriminate].
    intros (e & w' & H). rewrite (load_and_validate_complete _ _ _ Hfile Hall) in H.
    discriminate.
  - split; [split; [|reflexivity]|].
    + intros _. do 2 eexists. apply (load_and_validate_missing _ _ _ Hfile Hall).
    + intros _ _process_data split_and_save output_dir.
      unfold preprocess_data, DataPreprocessor.__init__, mkdir, mbind, M_bind.
      erewrite load_and_validate_missing; [reflexivity|exact Hfile|exact Hall].
Qed.

Lemma schema_validation_witness :
  preprocess_data (fun df => mret df) (fun _ _ => mret [])
    ("data/raw", "partner_revenue.csv") "data/processed" raw_without_value
  = (Raise ValueError,
     {| files := files raw_without_value;
        dirs := {["data/processed"]} ∪ dirs raw_without_value;
        log := log raw_without_value ++ [(ERROR, Error_loading_data ValueError)] |}).
Proof.
  apply (proj2 (schema_validation raw_without_value ("data/raw", "partner_revenue.csv")
                  {| columns := ["partner_id"; "period"; "report_type"];
                     rows := [[PStr "P1"; PStr "{'type': {'S': 'M'}}"; PStr "revenue"]] |}
                  eq_refl)).
  exists "value". split.
  - apply list_elem_of_In. simpl. tauto.
  - intros H. apply list_elem_of_In in H. simpl in H.
    repeat destruct H as [H|H]; try discriminate H; exact H.
Defined.

(** ** The rolling split *)

Section splitter_facts.
Variable to_datetime : list pyval → list (option Z).
Variable argsort : list Z → list nat.

Lemma process_single_file_sorted output_dir file_path min_data_points w df0 df :
  files w !! file_path = Some df0 →
  sorted_group to_datetime argsort df0 = Ok df →
  RollingForecastSplitter._process_single_file to_datetime argsort
    output_dir file_path min_data_points w
  = (Ok tt,
     if bool_decide (len df < min_data_points)
     then skipped file_path (len df) min_data_points w
     else split_saved output_dir file_path df w).
Proof.
  intros Hfile Hsorted.
  unfold RollingForecastSplitter._process_single_file, try_except, read_csv,
    mbind, M_bind, lift.
  rewrite Hfile. unfold sorted_group in Hsorted.
  destruct (getitem df0 "start_date") as [column|e]; [|discriminate].
  simpl in Hsorted. rewrite Hsorted.
  destruct (bool_decide (len df < min_data_points)); [reflexivity|].
  unfold to_csv, logger, split_saved. simpl. rewrite <- !app_assoc. reflexivity.
Qed.

(** What pandas and NumPy promise of the two library calls. *)
Hypothesis to_datetime_length : ∀ column, length (to_datetime column) = length column.
Hypothesis argsort_perm : ∀ v, argsort v ≡ₚ seq 0 (length v).

Lemma argsort_length v : length (argsort v) = length v.
Proof. rewrite (Permutation_length (argsort_perm v)). apply length_seq. Qed.

Lemma indices_where_split (items : list (option Z)) i :
  length (omap id items)
  + length (indices_where (fun x : option Z => bool_decide (x = None)) i items)
  = length items.
Proof.
  revert i. induction items as [|[t|] items IH]; intros i; simpl; [reflexivity| |];
    specialize (IH (S i)); unfold omap in IH; lia.
Qed.

Lemma nargsort_length items :
  length (RollingForecastSplitter.nargsort argsort items) = length items.
Proof.
  unfold RollingForecastSplitter.nargsort.
  rewrite length_app, length_map, argsort_length. apply indices_where_split.
Qed.

Lemma getitem_length df col column :
  getitem df col = Ok column → length column = len df.
Proof.
  unfold getitem. destruct (index_of col (columns df)); [|discriminate].
  intros [= <-]. apply length_map.
Qed.

Lemma setitem_existing df col i values :
  index_of col (columns df) = Some i →
  setitem df col values
  = {| columns := columns df;
       rows := zip_with (fun row x => <[i := x]> row) (rows df) values |}.
Proof. intros H. unfold setitem. rewrite H. reflexivity. Qed.

Lemma sorted_group_exists df0 :
  is_Some (index_of "start_date" (columns df0)) →
  ∃ df, sorted_group to_datetime argsort df0 = Ok df
        ∧ len df = len df0 ∧ columns df = columns df0.
Proof.
  intros [i Hi]. unfold sorted_group, RollingForecastSplitter.sort_values.
  destruct (getitem df0 "start_date") as [column|e] eqn:Hcol.
  2:{ unfold getitem in Hcol. rewrite Hi in Hcol. discriminate. }
  simpl. rewrite (setitem_existing _ _ _ _ Hi).
  unfold getitem at 1. simpl. rewrite Hi. simpl.
  eexists. split; [reflexivity|]. split; [|reflexivity].
  unfold len, take_rows. simpl. rewrite length_map, nargsort_length.
  rewrite !length_map, length_zip_with, length_fmap, to_datetime_length.
  rewrite (getitem_length _ _ _ Hcol). unfold len. lia.
Qed.

Lemma sorted_group_len df0 df :
  sorted_group to_datetime argsort df0 = Ok df → len df = len df0 ∧ columns df = columns df0.
Proof.
  intros H. destruct (index_of "start_date" (columns df0)) as [i|] eqn:Hi.
  - destruct (sorted_group_exists df0) as (df' & H' & Hlen); [by eexists|].
    rewrite H in H'. injection H' as <-. exact Hlen.
  - unfold sorted_group, getitem in H. rewrite Hi in H. discriminate.
Qed.

Lemma iloc_until_last_len k df : len (iloc_until_last k df) = len df - k.
Proof. unfold iloc_until_last, len. simpl. rewrite length_take. lia. Qed.

Lemma iloc_last_len k df : len (iloc_last k df) = k `min` len df.
Proof. unfold iloc_last, len. simpl. rewrite length_drop. lia. Qed.

Lemma append_inj_l s a b : s +:+ a = s +:+ b → a = b.
Proof. induction s as [|c s IH]; simpl; [auto|]. intros [= H]. auto. Qed.

Lemma filenames_NoDup output_dir file_path :
  NoDup [train_filename output_dir file_path;
         initial_test_filename output_dir file_path;
         final_test_filename output_dir file_path].
Proof.
  unfold train_filename, initial_test_filename, final_test_filename.
  repeat constructor; rewrite ?list_elem_of_In; simpl;
    intros H; repeat destruct H as [H|H]; try exact H;
    injection H as H; apply append_inj_l in H; discriminate.
Qed.

Lemma split_saved_files output_dir file_path df w :
  files (split_saved output_dir file_path df w) !! train_filename output_dir file_path
  = Some (train_df df)
  ∧ files (split_saved output_dir file_path df w) !! initial_test_filename output_dir file_path
    = Some (initial_test_df df)
  ∧ files (split_saved output_dir file_path df w) !! final_test_filename output_dir file_path
    = Some (final_test_df df).
Proof.
  pose proof (filenames_NoDup output_dir file_path) as Hnd.
  apply NoDup_cons in Hnd as [H1 Hnd]. apply NoDup_cons in Hnd as [H2 _].
  rewrite !not_elem_of_cons in H1. rewrite !not_elem_of_cons in H2.
  destruct H1 as (H12 & H13 & _), H2 as (H23 & _).
  unfold split_saved. simpl. repeat split.
  - rewrite lookup_insert_ne by congruence. rewrite lookup_insert_ne by congruence.
    apply lookup_insert_eq.
  - rewrite lookup_insert_ne by congruence. apply lookup_insert_eq.
  - apply lookup_insert_eq.
Qed.

Lemma process_single_file_split output_dir file_path min_data_points w df0 :
  files w !! file_path = Some df0 →
  is_Some (index_of "start_date" (columns df0)) →
  min_data_points ≤ len df0 →
  ∃ df, sorted_group to_datetime argsort df0 = Ok df ∧
    len df = len df0 ∧ columns df = columns df0 ∧
    RollingForecastSplitter._process_single_file to_datetime argsort
      output_dir file_path min_data_points w
    = (Ok tt, split_saved output_dir file_path df w).
Proof.
  intros Hfile Hcol Hmin.
  destruct (sorted_group_exists df0 Hcol) as (df & Hdf & Hlen & Hcols).
  exists df. repeat split; try assumption.
  rewrite (process_single_file_sorted _ _ _ _ _ _ Hfile Hdf).
  rewrite bool_decide_eq_false_2 by lia. reflexivity.
Qed.

(** C7: a group with fewer rows than the threshold [min_data_points] (8
    unless the caller of [process_files] says otherwise) is skipped: the
    call returns normally, no file is created or changed, and the log
    gains one warning. *)
Theorem undersized_group_is_skipped output_dir file_path min_data_points w df0 :
  files w !! file_path = Some df0 →
  is_Some (index_of "start_date" (columns df0)) →
  len df0 < min_data_points →
  let r := RollingForecastSplitter._process_single_file to_datetime argsort
             output_dir file_path min_data_points w in
  r.1 = Ok tt ∧ files r.2 = files w ∧
  log r.2 = log w ++ [(WARNING, Not_enough_data_points file_path.2 (len df0) min_data_points)].
Proof.
  intros Hfile Hcol Hlt.
  destruct (sorted_group_exists df0 Hcol) as (df & Hdf & Hlen & _).
  cbv zeta. rewrite (process_single_file_sorted _ _ _ _ _ _ Hfile Hdf).
  rewrite bool_decide_eq_true_2 by lia. rewrite Hlen. repeat split.
Qed.

(** C4: for a group of [n >= 8] rows that passes the threshold, the saved
    [initial_test] is the last 8 rows of the sorted series, [train] is every
    row before them, [final_test] has 4 rows fewer than [initial_test], and
    [train] followed by [initial_test] is the whole sorted series. *)
Theorem rolling_split_windows output_dir file_path min_data_points w df0 :
  files w !! file_path = Some df0 →
  is_Some (index_of "start_date" (columns df0)) →
  8 ≤ len df0 → min_data_points ≤ len df0 →
  let w' := (RollingForecastSplitter._process_single_file to_datetime argsort
               output_dir file_path min_data_points w).2 in
  ∃ df train initial_test final_test,
    sorted_group to_datetime argsort df0 = Ok df ∧ len df = len df0 ∧
    files w' !! train_filename output_dir file_path = Some train ∧
    files w' !! initial_test_filename output_dir file_path = Some initial_test ∧
    files w' !! final_test_filename output_dir file_path = Some final_test ∧
    rows initial_test = drop (len df - 8) (rows df) ∧
    len initial_test = 8 ∧
    rows train = take (len df - 8) (rows df) ∧
    len final_test + 4 = len initial_test ∧
    rows train ++ rows initial_test = rows df.
Proof.
  intros Hfile Hcol H8 Hmin.
  destruct (process_single_file_split output_dir _ _ _ _ Hfile Hcol Hmin)
    as (df & Hdf & Hlen & _ & ->).
  destruct (split_saved_files output_dir file_path df w) as (Htrain & Hinit & Hfinal).
  exists df, (train_df df), (initial_test_df df), (final_test_df df).
  cbv zeta. simpl snd.
  assert (Hi : len (initial_test_df df) = 8).
  { unfold initial_test_df. rewrite iloc_last_len. lia. }
  repeat split; try assumption.
  - unfold final_test_df. rewrite iloc_until_last_len. lia.
  - unfold train_df, initial_test_df, iloc_until_last, iloc_last. simpl.
    apply take_drop.
Qed.

(** C1, as amended: for a group of [n >= 8] rows that passes the
    threshold, the saved [final_test] is the first 4 rows of [initial_test],
    that is rows [n-8 .. n-5] of the sorted series: a prefix of
    [initial_test], followed there by the last 4 rows [n-4 .. n-1]. *)
Theorem final_test_is_head_of_initial_test output_dir file_path min_data_points w df0 :
  files w !! file_path = Some df0 →
  is_Some (index_of "start_date" (columns df0)) →
  8 ≤ len df0 → min_data_points ≤ len df0 →
  let w' := (RollingForecastSplitter._process_single_file to_datetime argsort
               output_dir file_path min_data_points w).2 in
  ∃ df initial_test final_test,
    sorted_group to_datetime argsort df0 = Ok df ∧ len df = len df0 ∧
    files w' !! initial_test_filename output_dir file_path = Some initial_test ∧
    files w' !! final_test_filename output_dir file_path = Some final_test ∧
    rows final_test = take 4 (drop (len df - 8) (rows df)) ∧
    rows initial_test = rows final_test ++ drop (len df - 4) (rows df).
Proof.
  intros Hfile Hcol H8 Hmin.
  destruct (process_single_file_split output_dir _ _ _ _ Hfile Hcol Hmin)
    as (df & Hdf & Hlen & _ & ->).
  destruct (split_saved_files output_dir file_path df w) as (_ & Hinit & Hfinal).
  exists df, (initial_test_df df), (final_test_df df).
  cbv zeta. simpl snd.
  assert (Hfin : rows (final_test_df df) = take 4 (drop (len df - 8) (rows df))).
  { unfold final_test_df, iloc_until_last. cbn [rows].
    replace (len (initial_test_df df)) with 8
      by (unfold initial_test_df; rewrite iloc_last_len; lia).
    reflexivity. }
  repeat split; try assumption.
  rewrite Hfin. unfold initial_test_df, iloc_last. simpl.
  rewrite <- (take_drop 4 (drop (len df - 8) (rows df))) at 1.
  rewrite drop_drop. do 2 f_equal. lia.
Qed.

(** C8: a group of exactly 8 rows is split into three files all the same:
    [train] is written with the header and no row, [initial_test] with the 8
    rows, [final_test] with 4, under three different names. *)
Theorem eight_row_group_writes_three_files output_dir file_path min_data_points w df0 :
  files w !! file_path = Some df0 →
  is_Some (index_of "start_date" (columns df0)) →
  len df0 = 8 → min_data_points ≤ 8 →
  let w' := (RollingForecastSplitter._process_single_file to_datetime argsort
               output_dir file_path min_data_points w).2 in
  files w' !! train_filename output_dir file_path
  = Some {| columns := columns df0; rows := [] |}
  ∧ (∃ initial_test,
       files w' !! initial_test_filename output_dir file_path = Some initial_test
       ∧ len initial_test = 8)
  ∧ (∃ final_test,
       files w' !! final_test_filename output_dir file_path = Some final_test
       ∧ len final_test = 4)
  ∧ NoDup [train_filename output_dir file_path;
           initial_test_filename output_dir file_path;
           final_test_filename output_dir file_path].
Proof.
  intros Hfile Hcol H8 Hmin.
  assert (Hmin' : min_data_points ≤ len df0) by lia.
  destruct (process_single_file_split output_dir _ _ _ _ Hfile Hcol Hmin')
    as (df & Hdf & Hlen & Hcols & ->).
  destruct (split_saved_files output_dir file_path df w) as (Htrain & Hinit & Hfinal).
  cbv zeta. simpl snd. rewrite Htrain, Hinit, Hfinal.
  assert (Hi : len (initial_test_df df) = 8).
  { unfold initial_test_df. rewrite iloc_last_len. lia. }
  split; [|split; [|split]].
  - f_equal. unfold train_df, iloc_until_last. rewrite Hcols. f_equal.
    replace (len df - 8) with 0 by lia. reflexivity.
  - eexists. split; [reflexivity|exact Hi].
  - eexists. split; [reflexivity|].
    unfold final_test_df. rewrite iloc_until_last_len. lia.
  - apply filenames_NoDup.
Qed.

(** *** Where the sort puts the rows *)

Lemma indices_where_valid (l : list (option Z)) o k :
  k < length (omap id l) →
  o ≤ nth k (indices_where is_valid o l) 0
  ∧ l !! (nth k (indices_where is_valid o l) 0 - o) = Some (Some (nth k (omap id l) 0%Z)).
Proof.
  revert o k. induction l as [|[t|] l IH]; intros o k; simpl; [lia| |].
  - destruct k as [|k]; simpl.
    + intros _. split; [lia|]. by rewrite Nat.sub_diag.
    + intros Hk. destruct (IH (S o) k) as [Hle Hlook]; [unfold omap; lia|].
      split; [lia|].
      replace (nth k (indices_where is_valid (S o) l) 0 - o)
        with (S (nth k (indices_where is_valid (S o) l) 0 - S o)) by lia.
      exact Hlook.
  - intros Hk. destruct (IH (S o) k) as [Hle Hlook]; [exact Hk|].
    split; [lia|].
    replace (nth k (indices_where is_valid (S o) l) 0 - o)
      with (S (nth k (indices_where is_valid (S o) l) 0 - S o)) by lia.
    exact Hlook.
Qed.

Lemma indices_where_NaT (l : list (option Z)) o j :
  j ∈ indices_where is_NaT o l → o ≤ j ∧ l !! (j - o) = Some None.
Proof.
  revert o. induction l as [|[t|] l IH]; intros o; simpl.
  - intros H. inversion H.
  - intros H. destruct (IH (S o) H) as [Hle Hlook]. split; [lia|].
    replace (j - o) with (S (j - S o)) by lia. exact Hlook.
  - intros H. apply elem_of_cons in H as [->|H].
    + split; [lia|]. by rewrite Nat.sub_diag.
    + destruct (IH (S o) H) as [Hle Hlook]. split; [lia|].
      replace (j - o) with (S (j - S o)) by lia. exact Hlook.
Qed.

Lemma indices_where_valid_length (l : list (option Z)) o :
  length (indices_where is_valid o l) = length (omap id l).
Proof.
  revert o. induction l as [|[t|] l IH]; intros o; simpl; [reflexivity| |].
  - f_equal. apply IH.
  - apply IH.
Qed.

Lemma indices_where_NaT_length (l : list (option Z)) o :
  length (indices_where is_NaT o l) = length (filter (fun d => d = None) l).
Proof.
  revert o. induction l as [|[t|] l IH]; intros o; [reflexivity| |].
  - rewrite filter_cons_False by discriminate. apply IH.
  - rewrite filter_cons_True by reflexivity. simpl. f_equal. apply IH.
Qed.

Lemma indices_where_partition (l : list (option Z)) o :
  indices_where is_valid o l ++ indices_where is_NaT o l ≡ₚ seq o (length l).
Proof.
  revert o. induction l as [|[t|] l IH]; intros o; simpl; [reflexivity| |].
  - constructor. apply IH.
  - rewrite <- Permutation_middle. constructor. apply IH.
Qed.

Lemma map_nth_seq {A} (l : list A) d :
  map (fun j => nth j l d) (seq 0 (length l)) = l.
Proof.
  induction l as [|a l IH]; simpl; [reflexivity|].
  f_equal. rewrite <- seq_shift, map_map. exact IH.
Qed.

Lemma nargsort_perm items :
  RollingForecastSplitter.nargsort argsort items ≡ₚ seq 0 (length items).
Proof.
  unfold RollingForecastSplitter.nargsort.
  rewrite <- (indices_where_partition items 0).
  apply Permutation_app; [|reflexivity].
  rewrite (argsort_perm (omap id items)).
  rewrite <- (indices_where_valid_length items 0).
  rewrite map_nth_seq. reflexivity.
Qed.

Lemma index_of_lt col cols i : index_of col cols = Some i → i < length cols.
Proof.
  revert i. induction cols as [|c cols IH]; intros i; simpl; [discriminate|].
  destruct (String.eqb c col); [intros [= <-]; lia|].
  destruct (index_of col cols) as [j|]; [|discriminate].
  intros [= <-]. specialize (IH j eq_refl). lia.
Qed.

Lemma datetime_key_cell d : datetime_key (datetime_cell d) = d.
Proof. by destruct d. Qed.

Lemma zip_with_insert_column i (rows0 : list (list pyval)) cells :
  Forall (fun row => i < length row) rows0 → length cells = length rows0 →
  map (fun row => default PNone (row !! i))
    (zip_with (fun row x => <[i := x]> row) rows0 cells) = cells.
Proof.
  intros Hwf. revert cells. induction Hwf as [|row rows0 Hrow _ IH];
    intros [|c cells]; simpl; try discriminate; [reflexivity|].
  intros [= Hlen]. rewrite list_lookup_insert_eq by exact Hrow. simpl.
  f_equal. apply IH, Hlen.
Qed.

Section one_group.
Variable df0 : DataFrame.
Variable i : nat.
Variable column : list pyval.
Hypothesis Hindex : index_of "start_date" (columns df0) = Some i.
Hypothesis Hcolumn : getitem df0 "start_date" = Ok column.
Hypothesis Hrect : rectangular df0.

Local Abbreviation dates := (to_datetime column).
Local Abbreviation table := (coerced to_datetime df0 column).

Lemma cells_length : length (datetime_cell <$> to_datetime column) = length (rows df0).
Proof.
  rewrite length_fmap, to_datetime_length. apply (getitem_length _ _ _ Hcolumn).
Qed.

Lemma rows_have_column : Forall (fun row => i < length row) (rows df0).
Proof.
  eapply Forall_impl; [exact Hrect|]. simpl. intros row ->.
  eapply index_of_lt, Hindex.
Qed.

Lemma coerced_rows_length : length (rows table) = length dates.
Proof.
  unfold coerced. rewrite (setitem_existing _ _ _ _ Hindex). simpl.
  rewrite length_zip_with, cells_length. rewrite <- cells_length, length_fmap. lia.
Qed.

Lemma getitem_coerced :
  getitem table "start_date" = Ok (datetime_cell <$> to_datetime column).
Proof.
  unfold coerced. rewrite (setitem_existing _ _ _ _ Hindex).
  unfold getitem. cbn [columns rows]. rewrite Hindex. f_equal.
  apply zip_with_insert_column; [apply rows_have_column|apply cells_length].
Qed.

Lemma sorted_group_eq :
  sorted_group to_datetime argsort df0
  = Ok (take_rows (RollingForecastSplitter.nargsort argsort dates) table).
Proof.
  unfold sorted_group, RollingForecastSplitter.sort_values. rewrite Hcolumn.
  cbn [mbind result_bind]. fold table. rewrite getitem_coerced.
  cbn [mbind result_bind]. do 3 f_equal.
  rewrite <- list_fmap_compose.
  rewrite <- (list_fmap_id dates) at 2.
  apply list_fmap_ext. intros ? d ?. apply datetime_key_cell.
Qed.

Lemma coerced_row j d :
  to_datetime column !! j = Some d →
  nth j (rows table) [] !! i = Some (datetime_cell d).
Proof.
  intros Hd. unfold coerced. rewrite (setitem_existing _ _ _ _ Hindex). simpl.
  assert (Hj : j < length (rows df0)).
  { apply lookup_lt_Some in Hd. rewrite <- cells_length, length_fmap. exact Hd. }
  destruct (lookup_lt_is_Some_2 _ _ Hj) as [row0 Hrow0].
  rewrite nth_lookup, lookup_zip_with, Hrow0, list_lookup_fmap, Hd. simpl.
  apply list_lookup_insert_eq.
  pose proof rows_have_column as Hall. rewrite Forall_lookup in Hall. eauto.
Qed.

Lemma sorted_rows_split :
  rows (take_rows (RollingForecastSplitter.nargsort argsort dates) table)
  = map (fun j => nth j (rows table) [])
      (map (fun k => nth k (indices_where is_valid 0 dates) 0)
         (argsort (omap id dates)))
    ++ map (fun j => nth j (rows table) []) (indices_where is_NaT 0 dates).
Proof. unfold take_rows, RollingForecastSplitter.nargsort. simpl. apply map_app. Qed.

Lemma argsort_in_range v k : k ∈ argsort v → k < length v.
Proof.
  intros H. rewrite (argsort_perm v) in H.
  apply list_elem_of_In, in_seq in H. lia.
Qed.

Lemma valid_rows_have_timestamp :
  Forall (fun row => ∃ t, row !! i = Some (PTimestamp t))
    (map (fun j => nth j (rows table) [])
       (map (fun k => nth k (indices_where is_valid 0 dates) 0)
          (argsort (omap id dates)))).
Proof.
  rewrite map_map. apply Forall_map, Forall_forall. intros k Hk.
  apply argsort_in_range in Hk.
  destruct (indices_where_valid dates 0 k Hk) as [_ Hlook].
  rewrite Nat.sub_0_r in Hlook. eexists. apply (coerced_row _ _ Hlook).
Qed.

Lemma null_rows_have_NaT :
  Forall (fun row => row !! i = Some PNaT)
    (map (fun j => nth j (rows table) []) (indices_where is_NaT 0 dates)).
Proof.
  apply Forall_map, Forall_forall. intros j Hj.
  destruct (indices_where_NaT _ _ _ Hj) as [_ Hlook].
  rewrite Nat.sub_0_r in Hlook. apply (coerced_row _ _ Hlook).
Qed.

(** C10: the rows whose timestamp did not parse carry NaT after the
    coercion and come after every row with a timestamp in the sorted
    series; when the group has [n >= 8] rows, passes the threshold and at
    most 8 of its rows are such rows, all of them are at the end of the
    saved [initial_test]. *)
Theorem null_timestamps_sort_last output_dir file_path min_data_points w :
  files w !! file_path = Some df0 →
  8 ≤ len df0 → min_data_points ≤ len df0 →
  let k := length (filter (fun d => d = None) dates) in
  let w' := (RollingForecastSplitter._process_single_file to_datetime argsort
               output_dir file_path min_data_points w).2 in
  ∃ df valid nulls,
    sorted_group to_datetime argsort df0 = Ok df ∧ rows df = valid ++ nulls ∧
    Forall (fun row => ∃ t, row !! i = Some (PTimestamp t)) valid ∧
    Forall (fun row => row !! i = Some PNaT) nulls ∧
    length nulls = k ∧
    (k ≤ 8 → ∃ initial_test head,
       files w' !! initial_test_filename output_dir file_path = Some initial_test
       ∧ rows initial_test = head ++ nulls).
Proof.
  intros Hfile H8 Hmin k w'.
  destruct (process_single_file_split output_dir _ _ _ _ Hfile
              ltac:(rewrite Hindex; eauto) Hmin) as (df & Hdf & Hlen & _ & Hw).
  subst w'. rewrite Hw. simpl snd.
  rewrite sorted_group_eq in Hdf. injection Hdf as <-.
  eexists _, _, _. split; [apply sorted_group_eq|].
  split; [apply sorted_rows_split|].
  split; [apply valid_rows_have_timestamp|].
  split; [apply null_rows_have_NaT|].
  assert (Hk : length (map (fun j => nth j (rows table) [])
                         (indices_where is_NaT 0 dates)) = k).
  { rewrite length_map. apply indices_where_NaT_length. }
  split; [exact Hk|]. intros Hk8.
  destruct (split_saved_files output_dir file_path
              (take_rows (RollingForecastSplitter.nargsort argsort dates)
                 table) w) as (_ & Hinit & _).
  eexists _, _. split; [exact Hinit|].
  unfold initial_test_df, iloc_last, len in *. cbn [rows].
  rewrite sorted_rows_split in Hlen |- *. rewrite length_app, Hk in Hlen |- *.
  apply drop_app_le. lia.
Qed.

Lemma map_const {A B} (f : A → B) (c : B) (l : list A) :
  (∀ x, In x l → f x = c) → map f l = replicate (length l) c.
Proof.
  induction l as [|a l IH]; simpl; [reflexivity|].
  intros H. rewrite (H a) by auto. f_equal. apply IH. auto.
Qed.

Hypothesis argsort_sorted :
  ∀ v, StronglySorted Z.le (map (fun k => nth k v 0%Z) (argsort v)).

End one_group.
End splitter_facts.

Lemma to_datetime_iso_length column : length (to_datetime_iso column) = length column.
Proof. apply length_map. Qed.

Lemma merge_argsort_perm v : merge_argsort v ≡ₚ seq 0 (length v).
Proof. apply merge_sort_Permutation. Qed.

Lemma merge_argsort_sorted v :
  StronglySorted Z.le (map (fun k => nth k v 0%Z) (merge_argsort v)).
Proof.
  apply (StronglySorted_fmap _ (key_le v)); [auto|].
  apply StronglySorted_merge_sort; apply _.
Qed.

Lemma undersized_group_is_skipped_witness :
  let r := RollingForecastSplitter._process_single_file to_datetime_iso merge_argsort
             "data/split_data" P1_M 8 (disk (first_rows 7 nine_months)) in
  r.1 = Ok tt ∧ files r.2 = files (disk (first_rows 7 nine_months)) ∧
  log r.2 = [(WARNING, Not_enough_data_points "P1_M.csv" 7 8)].
Proof.
  apply (undersized_group_is_skipped to_datetime_iso merge_argsort
           to_datetime_iso_length merge_argsort_perm
           "data/split_data" P1_M 8 (disk (first_rows 7 nine_months))
           (first_rows 7 nine_months)).
  - reflexivity.
  - exists 4. reflexivity.
  - vm_compute. lia.
Defined.

Lemma rolling_split_windows_witness :
  let w' := (RollingForecastSplitter._process_single_file to_datetime_iso merge_argsort
               "data/split_data" P1_M 8 (disk nine_months)).2 in
  ∃ df train initial_test final_test,
    sorted_group to_datetime_iso merge_argsort nine_months = Ok df ∧ len df = 9 ∧
    files w' !! ("data/split_data", "P1_M_train.csv") = Some train ∧
    files w' !! ("data/split_data", "P1_M_initial_test.csv") = Some initial_test ∧
    files w' !! ("data/split_data", "P1_M_final_test.csv") = Some final_test ∧
    rows initial_test = drop (len df - 8) (rows df) ∧
    len initial_test = 8 ∧
    rows train = take (len df - 8) (rows df) ∧
    len final_test + 4 = len initial_test ∧
    rows train ++ rows initial_test = rows df.
Proof.
  apply (rolling_split_windows to_datetime_iso merge_argsort
           to_datetime_iso_length merge_argsort_perm
           "data/split_data" P1_M 8 (disk nine_months) nine_months).
  - reflexivity.
  - exists 4. reflexivity.
  - vm_compute. lia.
  - vm_compute. lia.
Defined.

Lemma final_test_is_head_of_initial_test_witness :
  let w' := (RollingForecastSplitter._process_single_file to_datetime_iso merge_argsort
               "data/split_data" P1_M 8 (disk nine_months)).2 in
  ∃ df initial_test final_test,
    sorted_group to_datetime_iso merge_argsort nine_months = Ok df ∧ len df = 9 ∧
    files w' !! ("data/split_data", "P1_M_initial_test.csv") = Some initial_test ∧
    files w' !! ("data/split_data", "P1_M_final_test.csv") = Some final_test ∧
    rows final_test = take 4 (drop (len df - 8) (rows df)) ∧
    rows initial_test = rows final_test ++ drop (len df - 4) (rows df).
Proof.
  apply (final_test_is_head_of_initial_test to_datetime_iso merge_argsort
           to_datetime_iso_length merge_argsort_perm
           "data/split_data" P1_M 8 (disk nine_months) nine_months).
  - reflexivity.
  - exists 4. reflexivity.
  - vm_compute. lia.
  - vm_compute. lia.
Defined.

Lemma eight_row_group_writes_three_files_witness :
  let w' := (RollingForecastSplitter._process_single_file to_datetime_iso merge_argsort
               "data/split_data" P1_M 8 (disk (first_rows 8 nine_months))).2 in
  files w' !! ("data/split_data", "P1_M_train.csv")
  = Some {| columns := processed_columns; rows := [] |}
  ∧ (∃ initial_test,
       files w' !! ("data/split_data", "P1_M_initial_test.csv") = Some initial_test
       ∧ len initial_test = 8)
  ∧ (∃ final_test,
       files w' !! ("data/split_data", "P1_M_final_test.csv") = Some final_test
       ∧ len final_test = 4)
  ∧ NoDup [("data/split_data", "P1_M_train.csv");
           ("data/split_data", "P1_M_initial_test.csv");
           ("data/split_data", "P1_M_final_test.csv")].
Proof.
  apply (eight_row_group_writes_three_files to_datetime_iso merge_argsort
           to_datetime_iso_length merge_argsort_perm
           "data/split_data" P1_M 8 (disk (first_rows 8 nine_months))
           (first_rows 8 nine_months)).
  - reflexivity.
  - exists 4. reflexivity.
  - reflexivity.
  - vm_compute. lia.
Defined.

(** C1 as stated fails on the code: of the nine months January to
    September, [final_test] holds February to May (revenues 110 to 140), the
    first half of [initial_test], and not the last four rows, June to
    September. *)
Lemma final_test_is_last_four_counterexample :
  let w' := (RollingForecastSplitter._process_single_file to_datetime_iso aquicksort
               "data/split_data" P1_M 8 (disk nine_months)).2 in
  ∃ df initial_test final_test,
    sorted_group to_datetime_iso aquicksort nine_months = Ok df ∧
    files w' !! ("data/split_data", "P1_M_initial_test.csv") = Some initial_test ∧
    files w' !! ("data/split_data", "P1_M_final_test.csv") = Some final_test ∧
    revenues df = PInt <$> [100; 110; 120; 130; 140; 150; 160; 170; 180]%Z ∧
    revenues initial_test = PInt <$> [110; 120; 130; 140; 150; 160; 170; 180]%Z ∧
    revenues final_test = PInt <$> [110; 120; 130; 140]%Z ∧
    rows final_test ≠ drop (len df - 4) (rows df) ∧
    ¬ rows final_test `suffix_of` rows initial_test.
Proof.
  cbv zeta. eexists _, _, _.
  split; [vm_compute; reflexivity|].
  split; [vm_compute; reflexivity|].
  split; [vm_compute; reflexivity|].
  split; [vm_compute; reflexivity|].
  split; [vm_compute; reflexivity|].
  split; [vm_compute; reflexivity|].
  split.
  - vm_compute. discriminate.
  - intros [k Hk]. assert (Hlen : length k = 4).
    { apply (f_equal length) in Hk. rewrite length_app in Hk. simpl in Hk. lia. }
    destruct k as [|r1 [|r2 [|r3 [|r4 [|r5 k]]]]]; try discriminate Hlen.
    vm_compute in Hk. discriminate Hk.
Qed.

Lemma with_gaps_rectangular : rectangular with_gaps.
Proof. repeat constructor. Qed.

Lemma null_timestamps_sort_last_witness :
  let w' := (RollingForecastSplitter._process_single_file to_datetime_iso merge_argsort
               "data/split_data" P1_M 8 (disk with_gaps)).2 in
  ∃ df valid nulls,
    sorted_group to_datetime_iso merge_argsort with_gaps = Ok df ∧
    rows df = valid ++ nulls ∧
    Forall (fun row => ∃ t, row !! 4 = Some (PTimestamp t)) valid ∧
    Forall (fun row => row !! 4 = Some PNaT) nulls ∧
    length nulls = 2 ∧
    (2 ≤ 8 → ∃ initial_test head,
       files w' !! ("data/split_data", "P1_M_initial_test.csv") = Some initial_test
       ∧ rows initial_test = head ++ nulls).
Proof.
  apply (null_timestamps_sort_last to_datetime_iso merge_argsort
           to_datetime_iso_length merge_argsort_perm
           with_gaps 4 (start_dates with_gaps) eq_refl eq_refl with_gaps_rectangular
           "data/split_data" P1_M 8 (disk with_gaps)).
  - reflexivity.
  - vm_compute. lia.
  - vm_compute. lia.
Defined.



(** * Further properties of the modelled code *)

(** ** [_parse_period] *)

(** X1: [_parse_period] never touches a file or a directory and logs at
    most one record, a warning about the value it was given; a value that
    is not a string (an empty cell read as NaN, a number) is answered with
    [(None, None)] and that warning. *)
Theorem parse_period_frame x w :
  let r := DataPreprocessor._parse_period x w in
  files r.2 = files w ∧ dirs r.2 = dirs w ∧
  (log r.2 = log w ∨ ∃ e, log r.2 = log w ++ [(WARNING, Error_parsing_period x e)]) ∧
  ((∀ s, x ≠ PStr s) →
     r.1 = Ok (PNone, PNone) ∧
     log r.2 = log w ++ [(WARNING, Error_parsing_period x AttributeError)]).
Proof.
  cbv zeta. split; [|split; [|split]].
  - destruct (parse_period_cases x w) as [[p H]|[e H]]; rewrite H; reflexivity.
  - destruct (parse_period_cases x w) as [[p H]|[e H]]; rewrite H; reflexivity.
  - destruct (parse_period_cases x w) as [[p H]|[e H]]; rewrite H; simpl; eauto.
  - intros Hx. rewrite (parse_period_not_str x w Hx). split; reflexivity.
Qed.

Lemma parse_period_frame_witness :
  (DataPreprocessor._parse_period (PFloat "nan") quiet).1 = Ok (PNone, PNone)
  ∧ log (DataPreprocessor._parse_period (PFloat "nan") quiet).2
    = [(WARNING, Error_parsing_period (PFloat "nan") AttributeError)].
Proof.
  apply (proj2 (proj2 (proj2 (parse_period_frame (PFloat "nan") quiet)))).
  discriminate.
Defined.

(** X2: when the period text decodes to an object whose [type] and
    [start_date] entries are objects themselves, the result is whatever
    stands under their key [S], of any JSON type, or [None] where [S] is
    absent; other keys of the three objects play no part and nothing is
    logged. *)
Theorem parse_period_reads_only_S s w items type start :
  json_loads (replace_char "'" DQUOTE s) = Ok (PDict items) →
  dict_lookup items "type" = Some (PDict type) →
  dict_lookup items "start_date" = Some (PDict start) →
  DataPreprocessor._parse_period (PStr s) w
  = (Ok (default PNone (dict_lookup type "S"), default PNone (dict_lookup start "S")), w).
Proof.
  intros Hv Htype Hstart. rewrite (parse_period_decoded _ _ _ Hv).
  simpl. rewrite Htype. simpl. destruct (dict_lookup type "S"); simpl;
    rewrite Hstart; simpl; destruct (dict_lookup start "S"); reflexivity.
Qed.

Lemma parse_period_reads_only_S_witness :
  DataPreprocessor._parse_period
    (PStr "{'end_date': {'S': '2024-01-31'}, 'type': {'S': 'M', 'N': '1'}, 'start_date': {'S': 20240101}}")
    quiet
  = (Ok (PStr "M", PInt 20240101), quiet).
Proof.
  apply (parse_period_reads_only_S _ quiet
           [("end_date", PDict [("S", PStr "2024-01-31")]);
            ("type", PDict [("S", PStr "M"); ("N", PStr "1")]);
            ("start_date", PDict [("S", PInt 20240101)])]
           [("S", PStr "M"); ("N", PStr "1")] [("S", PInt 20240101)]);
    reflexivity.
Defined.

(** ** [_load_and_validate_data] *)

(** X3: loading never changes a file or a directory and adds exactly one
    record to the log: the row count when it returns a table, the exception
    it re-raises otherwise (a file that cannot be read gives
    [FileNotFoundError], not a schema error). *)
Theorem load_and_validate_frame file_path w :
  let r := DataPreprocessor._load_and_validate_data file_path w in
  files r.2 = files w ∧ dirs r.2 = dirs w ∧
  ((∃ df df', files w !! file_path = Some df ∧ r.1 = Ok df' ∧
      log r.2 = log w ++ [(INFO, Loaded_rows (len df) file_path)])
   ∨ (∃ e, r.1 = Raise e ∧ log r.2 = log w ++ [(ERROR, Error_loading_data e)] ∧
        (files w !! file_path = None → e = FileNotFoundError))).
Proof.
  cbv zeta. destruct (files w !! file_path) as [df|] eqn:Hfile.
  - destruct (forallb (has_column df) DataPreprocessor.required_columns) eqn:Hall.
    + rewrite (load_and_validate_complete _ _ _ Hfile Hall). simpl.
      repeat split. left. eauto.
    + rewrite (load_and_validate_missing _ _ _ Hfile Hall). simpl.
      repeat split. right. eexists. repeat split. discriminate.
  - unfold DataPreprocessor._load_and_validate_data, try_except, read_csv, mbind, M_bind.
    rewrite Hfile. simpl. repeat split. right. eexists. repeat split.
Qed.

Lemma getitem_select_columns df col :
  col ∈ DataPreprocessor.required_columns →
  getitem (select_columns df DataPreprocessor.required_columns) col
  = Ok (map (fun row => default PNone (i ← index_of col (columns df); row !! i)) (rows df)).
Proof.
  intros Hcol. unfold getitem, select_columns. cbn [columns rows].
  apply list_elem_of_In in Hcol. simpl in Hcol.
  destruct Hcol as [<-|[<-|[<-|[<-|[]]]]]; cbn [index_of String.eqb Ascii.eqb Bool.eqb];
    simpl; f_equal; rewrite map_map; reflexivity.
Qed.

(** X4: when every required column is present, the table returned holds
    exactly the columns [partner_id], [period], [report_type], [value] in
    that order, whatever their order in the file and whatever other columns
    the file has, with the same number of rows and, under each of the four
    names, the cells the file has under it. *)
Theorem load_and_validate_projects file_path w df :
  files w !! file_path = Some df →
  (∀ col, col ∈ DataPreprocessor.required_columns → col ∈ columns df) →
  ∃ df', (DataPreprocessor._load_and_validate_data file_path w).1 = Ok df' ∧
    columns df' = ["partner_id"; "period"; "report_type"; "value"] ∧
    len df' = len df ∧
    ∀ col, col ∈ DataPreprocessor.required_columns → getitem df' col = getitem df col.
Proof.
  intros Hfile Hall.
  assert (Hb : forallb (has_column df) DataPreprocessor.required_columns = true).
  { apply forallb_forall. intros col Hcol. apply has_column_true, Hall, list_elem_of_In, Hcol. }
  rewrite (load_and_validate_complete _ _ _ Hfile Hb). eexists. split; [reflexivity|].
  split; [reflexivity|]. split; [apply length_map|].
  intros col Hcol. rewrite (getitem_select_columns _ _ Hcol).
  apply Hall, index_of_Some in Hcol as [i Hi]. unfold getitem. rewrite Hi. reflexivity.
Qed.

Lemma load_and_validate_projects_witness :
  ∃ df', (DataPreprocessor._load_and_validate_data ("data/raw", "raw_data.csv")
            raw_disk).1 = Ok df' ∧
    columns df' = ["partner_id"; "period"; "report_type"; "value"] ∧
    len df' = len raw_shuffled ∧
    ∀ col, col ∈ DataPreprocessor.required_columns →
      getitem df' col = getitem raw_shuffled col.
Proof.
  apply (load_and_validate_projects ("data/raw", "raw_data.csv") raw_disk raw_shuffled
           eq_refl).
  intros col Hcol. apply list_elem_of_In in Hcol. apply list_elem_of_In.
  simpl in *. intuition.
Defined.

(** ** [Path.stem] and the names of the output files *)

Lemma append_cons c s t : String c s +:+ t = String c (s +:+ t).
Proof. reflexivity. Qed.

Lemma length_append s t : String.length (s +:+ t) = String.length s + String.length t.
Proof. induction s as [|c s IH]; [reflexivity|]. rewrite append_cons. simpl. lia. Qed.

Lemma substring_append s t : substring 0 (String.length s) (s +:+ t) = s.
Proof.
  induction s as [|c s IH].
  - destruct t; reflexivity.
  - rewrite append_cons. simpl. rewrite IH. reflexivity.
Qed.

Lemma rfind_dot_csv s i found :
  rfind_dot (s +:+ ".csv") i found = Some (i + String.length s).
Proof.
  revert i found. induction s as [|c s IH]; intros i found.
  - simpl. f_equal. lia.
  - rewrite append_cons. simpl. rewrite IH. f_equal. lia.
Qed.

Lemma stem_csv B : B ≠ "" → stem (B +:+ ".csv") = B.
Proof.
  intros HB. unfold stem. rewrite rfind_dot_csv, length_append. simpl.
  rewrite bool_decide_eq_true_2; [apply substring_append|].
  destruct B; [done|]. simpl. lia.
Qed.

(** Where [rfind_dot] answers [i], either that is what it started with,
    or the name has a dot at [i]. *)
Lemma rfind_dot_spec s k found i :
  rfind_dot s k found = Some i →
  found = Some i ∨ ∃ j ext, i = k + j ∧ s = substring 0 j s +:+ String "." ext.
Proof.
  revert k found. induction s as [|c s IH]; intros k found H; simpl in H; [auto|].
  apply IH in H as [H|(j & ext & -> & Hs)].
  - destruct (Ascii.eqb_spec c "."); [|auto]. injection H as <-. subst c. right.
    exists 0, s. split; [lia|reflexivity].
  - right. exists (S j), ext. split; [lia|]. simpl. rewrite append_cons. f_equal. exact Hs.
Qed.

Lemma stem_cases name : stem name = name ∨ ∃ ext, name = stem name +:+ String "." ext.
Proof.
  unfold stem. destruct (rfind_dot name 0 None) as [i|] eqn:H; [|auto].
  destruct (bool_decide _); [|auto].
  apply rfind_dot_spec in H as [H|(j & ext & -> & Hs)]; [discriminate|].
  right. exists ext. exact Hs.
Qed.

Lemma append_neq_self s t : t ≠ "" → s +:+ t ≠ s.
Proof.
  intros Ht H. apply (f_equal String.length) in H. rewrite length_append in H.
  destruct t; [done|]. simpl in H. lia.
Qed.

(** No output name is the name of the file it is derived from. *)
Lemma output_is_not_input output_dir file_path : file_path ∉ outputs output_dir file_path.
Proof.
  unfold outputs, train_filename, initial_test_filename, final_test_filename.
  destruct file_path as [dir name]. cbn [snd].
  rewrite !not_elem_of_cons. repeat split; try apply not_elem_of_nil;
    intros [= _ H]; symmetry in H;
    (destruct (stem_cases name) as [Hs|[ext Hs]];
     [rewrite Hs in H; by apply append_neq_self in H
     |rewrite Hs in H at 2; apply append_inj_l in H; discriminate]).
Qed.

Lemma append_assoc s t u : (s +:+ t) +:+ u = s +:+ (t +:+ u).
Proof. induction s as [|c s IH]; [reflexivity|]. rewrite !append_cons, IH. reflexivity. Qed.

Lemma append_inj_2 s1 s2 t1 t2 :
  String.length t1 = String.length t2 → s1 +:+ t1 = s2 +:+ t2 → s1 = s2 ∧ t1 = t2.
Proof.
  intros Hlen. revert s2. induction s1 as [|c s1 IH]; intros [|c' s2] H.
  - auto.
  - apply (f_equal String.length) in H. rewrite !length_append in H. simpl in H. lia.
  - apply (f_equal String.length) in H. rewrite !length_append in H. simpl in H. lia.
  - rewrite !append_cons in H. injection H as -> H. apply IH in H as [-> ->]. auto.
Qed.

Lemma suffix_clash s1 s2 pre t1 t2 :
  String.length t1 = String.length t2 → t1 ≠ t2 → s1 +:+ t1 ≠ s2 +:+ (pre +:+ t2).
Proof.
  intros Hlen Hne H. rewrite <- append_assoc in H.
  apply append_inj_2 in H as [_ H]; done.
Qed.

(** Two output names are the same only when they are of the same kind and
    come from the same stem. *)
Lemma outputs_disjoint output_dir p q x :
  stem p.2 ≠ stem q.2 → x ∈ outputs output_dir p → x ∉ outputs output_dir q.
Proof.
  intros Hstem. unfold outputs, train_filename, initial_test_filename, final_test_filename.
  intros Hx. rewrite !elem_of_cons, elem_of_nil in Hx. destruct Hx as [->|[->|[->|[]]]];
    rewrite !not_elem_of_cons; repeat split; try apply not_elem_of_nil; intros [= H].
  - by apply append_inj_2 in H as [H _].
  - by apply (suffix_clash _ _ "_initia" "_train.csv" "l_test.csv") in H.
  - by apply (suffix_clash _ _ "_fina" "_train.csv" "l_test.csv") in H.
  - symmetry in H. by apply (suffix_clash _ _ "_initia" "_train.csv" "l_test.csv") in H.
  - by apply append_inj_2 in H as [H _].
  - symmetry in H.
    by apply (suffix_clash _ _ "_i" "_final_test.csv" "nitial_test.csv") in H.
  - symmetry in H. by apply (suffix_clash _ _ "_fina" "_train.csv" "l_test.csv") in H.
  - by apply (suffix_clash _ _ "_i" "_final_test.csv" "nitial_test.csv") in H.
  - by apply append_inj_2 in H as [H _].
Qed.

Lemma ends_with_csv_spec name :
  RollingForecastSplitter.ends_with_csv name = true ↔ ∃ B, name = B +:+ ".csv".
Proof.
  split.
  - induction name as [|c name IH]; [discriminate|].
    cbn [RollingForecastSplitter.ends_with_csv]. intros [H|H]%orb_true_iff.
    + apply String.eqb_eq in H. exists "". exact H.
    + destruct (IH H) as [B ->]. exists (String c B). reflexivity.
  - intros [B ->]. induction B as [|c B IH]; [reflexivity|].
    rewrite append_cons. cbn [RollingForecastSplitter.ends_with_csv].
    rewrite IH. apply orb_true_r.
Qed.

(** ** [_process_single_file] on any file and any world *)

Lemma written_other output_dir file_path df m p :
  p ∉ outputs output_dir file_path → written output_dir file_path df m !! p = m !! p.
Proof.
  unfold outputs, written. rewrite !not_elem_of_cons. intros (H1 & H2 & H3 & _).
  rewrite !lookup_insert_ne by congruence. reflexivity.
Qed.

Lemma written_is_Some output_dir file_path df m p :
  is_Some (m !! p) → is_Some (written output_dir file_path df m !! p).
Proof.
  intros H. unfold written. rewrite !lookup_insert_is_Some.
  destruct (decide (final_test_filename output_dir file_path = p)); [auto|].
  destruct (decide (initial_test_filename output_dir file_path = p)); [auto|].
  destruct (decide (train_filename output_dir file_path = p)); auto 7.
Qed.

Lemma written_twice output_dir file_path df m :
  written output_dir file_path df (written output_dir file_path df m)
  = written output_dir file_path df m.
Proof.
  apply map_eq. intros p. unfold written. rewrite !lookup_insert.
  repeat case_decide; reflexivity.
Qed.

Lemma outputs_in_output_dir output_dir file_path p :
  p ∈ outputs output_dir file_path → p.1 = output_dir.
Proof.
  unfold outputs. rewrite !elem_of_cons, elem_of_nil.
  intros [->|[->|[->|[]]]]; reflexivity.
Qed.

Section splitter_runs.
Variable to_datetime : list pyval → list (option Z).
Variable argsort : list Z → list nat.

(** The three ways a call can end: the caught exception logged, the group
    skipped, the split saved. *)
Lemma process_single_file_cases output_dir file_path min_data_points w :
  (∃ e, RollingForecastSplitter._process_single_file to_datetime argsort
          output_dir file_path min_data_points w
        = (Ok tt, errored file_path e w)
        ∧ match files w !! file_path with
          | None => e = FileNotFoundError
          | Some df0 => sorted_group to_datetime argsort df0 = Raise e
          end)
  ∨ (∃ df0 df, files w !! file_path = Some df0 ∧
       sorted_group to_datetime argsort df0 = Ok df ∧ len df < min_data_points ∧
       RollingForecastSplitter._process_single_file to_datetime argsort
         output_dir file_path min_data_points w
       = (Ok tt, skipped file_path (len df) min_data_points w))
  ∨ (∃ df0 df, files w !! file_path = Some df0 ∧
       sorted_group to_datetime argsort df0 = Ok df ∧ min_data_points ≤ len df ∧
       RollingForecastSplitter._process_single_file to_datetime argsort
         output_dir file_path min_data_points w
       = (Ok tt, split_saved output_dir file_path df w)).
Proof.
  destruct (files w !! file_path) as [df0|] eqn:Hfile.
  - destruct (sorted_group to_datetime argsort df0) as [df|e] eqn:Hdf.
    + rewrite (process_single_file_sorted _ _ _ _ _ _ _ _ Hfile Hdf).
      case_bool_decide; right; [left|right]; exists df0, df; repeat split; auto; lia.
    + left. exists e. split; [|reflexivity].
      unfold RollingForecastSplitter._process_single_file, try_except, read_csv,
        mbind, M_bind, lift.
      rewrite Hfile. unfold sorted_group in Hdf.
      destruct (getitem df0 "start_date") as [column|e0]; simpl in Hdf.
      * rewrite Hdf. reflexivity.
      * injection Hdf as <-. reflexivity.
  - left. exists FileNotFoundError. split; [|reflexivity].
    unfold RollingForecastSplitter._process_single_file, try_except, read_csv,
      mbind, M_bind.
    rewrite Hfile. reflexivity.
Qed.

(** What a call does to the world, whichever way it ends. *)
Lemma process_single_file_effect output_dir file_path min_data_points w :
  ∃ w', RollingForecastSplitter._process_single_file to_datetime argsort
          output_dir file_path min_data_points w = (Ok tt, w') ∧
    dirs w' = dirs w ∧
    (∀ p, p ∉ outputs output_dir file_path → files w' !! p = files w !! p) ∧
    (∀ p, is_Some (files w !! p) → is_Some (files w' !! p)) ∧
    (∃ records, records ≠ [] ∧ log w' = log w ++ records).
Proof.
  destruct (process_single_file_cases output_dir file_path min_data_points w)
    as [(e & -> & _)|[(df0 & df & _ & _ & _ & ->)|(df0 & df & _ & _ & _ & ->)]];
    eexists; (split; [reflexivity|]);
    cbn [errored skipped split_saved files dirs log]; (split; [reflexivity|]).
  1,2: repeat split; auto; eexists; (split; [|reflexivity]); discriminate.
  fold (written output_dir file_path df (files w)).
  split; [intros p; apply written_other|].
  split; [intros p; apply written_is_Some|].
  eexists; (split; [|reflexivity]); discriminate.
Qed.

(** X5: [_process_single_file] returns normally whatever the file and
    whatever happens inside; it creates no directory, removes no file,
    leaves every file but its three outputs as it was, the file it reads
    included, and always adds to the log, taking nothing from it. *)
Theorem process_single_file_contained output_dir file_path min_data_points w :
  let r := RollingForecastSplitter._process_single_file to_datetime argsort
             output_dir file_path min_data_points w in
  r.1 = Ok tt ∧ dirs r.2 = dirs w ∧
  (∀ p, p ∉ outputs output_dir file_path → files r.2 !! p = files w !! p) ∧
  files r.2 !! file_path = files w !! file_path ∧
  (∀ p, is_Some (files w !! p) → is_Some (files r.2 !! p)) ∧
  (∃ records, records ≠ [] ∧ log r.2 = log w ++ records).
Proof.
  cbv zeta.
  destruct (process_single_file_effect output_dir file_path min_data_points w)
    as (w' & -> & Hdirs & Hother & Hkept & Hlog).
  cbn [fst snd]. repeat split; auto. apply Hother, output_is_not_input.
Qed.

(** X6: a file that cannot be read, and a file without a [start_date]
    column, end the call in its handler: the call returns normally, one
    ERROR record names the file and the exception ([FileNotFoundError],
    [KeyError]), and nothing is written. *)
Theorem process_single_file_unreadable output_dir file_path min_data_points w :
  (files w !! file_path = None →
   RollingForecastSplitter._process_single_file to_datetime argsort
     output_dir file_path min_data_points w
   = (Ok tt, errored file_path FileNotFoundError w))
  ∧ (∀ df0, files w !! file_path = Some df0 → "start_date" ∉ columns df0 →
     RollingForecastSplitter._process_single_file to_datetime argsort
       output_dir file_path min_data_points w
     = (Ok tt, errored file_path KeyError w)).
Proof.
  split.
  - intros Hfile.
    destruct (process_single_file_cases output_dir file_path min_data_points w)
      as [(e & H & He)|[(df0 & df & Hf & _)|(df0 & df & Hf & _)]];
      rewrite Hfile in *; [|discriminate..].
    subst e. exact H.
  - intros df0 Hfile Hcol.
    assert (Hraise : sorted_group to_datetime argsort df0 = Raise KeyError).
    { unfold sorted_group, getitem.
      destruct (index_of "start_date" (columns df0)) as [i|] eqn:Hi; [|reflexivity].
      destruct Hcol. apply index_of_Some. eauto. }
    destruct (process_single_file_cases output_dir file_path min_data_points w)
      as [(e & H & He)|[(df0' & df & Hf & Hdf & _)|(df0' & df & Hf & Hdf & _)]];
      rewrite Hfile in *.
    + rewrite Hraise in He. injection He as <-. exact H.
    + injection Hf as <-. congruence.
    + injection Hf as <-. congruence.
Qed.

(** X7: a second call on the same file leaves the files as the first call
    left them: what it writes is what is there already. *)
Theorem process_single_file_again output_dir file_path min_data_points w :
  let w1 := (RollingForecastSplitter._process_single_file to_datetime argsort
               output_dir file_path min_data_points w).2 in
  let w2 := (RollingForecastSplitter._process_single_file to_datetime argsort
               output_dir file_path min_data_points w1).2 in
  files w2 = files w1.
Proof.
  cbv zeta.
  set (w1 := (RollingForecastSplitter._process_single_file to_datetime argsort
                output_dir file_path min_data_points w).2).
  destruct (process_single_file_cases output_dir file_path min_data_points w1)
    as [(e & -> & _)|[(df0 & df & _ & _ & _ & ->)|(df0' & df' & Hf' & Hdf' & Hmin' & ->)]];
    [reflexivity..|].
  cbn [snd split_saved files]. fold (written output_dir file_path df' (files w1)).
  subst w1. revert Hf'.
  destruct (process_single_file_cases output_dir file_path min_data_points w)
    as [(e & -> & He)|[(df0 & df & Hf & Hdf & Hmin & ->)|(df0 & df & Hf & Hdf & Hmin & ->)]];
    cbn [snd errored skipped split_saved files]; intros Hf'.
  - rewrite Hf' in He. congruence.
  - rewrite Hf in Hf'. injection Hf' as <-. rewrite Hdf in Hdf'. injection Hdf' as <-. lia.
  - fold (written output_dir file_path df (files w)) in *.
    rewrite written_other in Hf' by apply output_is_not_input.
    rewrite Hf in Hf'. injection Hf' as <-. rewrite Hdf in Hdf'. injection Hdf' as <-.
    apply written_twice.
Qed.

(** What pandas and NumPy promise of the two library calls. *)
Hypothesis to_datetime_length : ∀ column, length (to_datetime column) = length column.
Hypothesis argsort_perm : ∀ v, argsort v ≡ₚ seq 0 (length v).

Lemma sorted_group_perm df0 df :
  sorted_group to_datetime argsort df0 = Ok df →
  ∃ column, getitem df0 "start_date" = Ok column ∧
    columns df = columns (coerced to_datetime df0 column) ∧
    rows df ≡ₚ rows (coerced to_datetime df0 column).
Proof.
  unfold sorted_group, RollingForecastSplitter.sort_values.
  destruct (getitem df0 "start_date") as [column|e]; [|discriminate].
  cbn [mbind result_bind]. fold (coerced to_datetime df0 column).
  destruct (getitem (coerced to_datetime df0 column) "start_date") as [keys|e] eqn:Hkeys;
    [|discriminate].
  cbn [mbind result_bind]. intros [= <-]. exists column.
  split; [reflexivity|]. split; [reflexivity|].
  unfold take_rows. cbn [rows].
  rewrite (Permutation_map _ (nargsort_perm argsort argsort_perm _)).
  rewrite length_map, (getitem_length _ _ _ Hkeys). unfold len.
  rewrite map_nth_seq. reflexivity.
Qed.

(** X8: with a threshold below 8, a group of fewer than 8 rows that
    passes it is split all the same: [train] gets the header and no row,
    [initial_test] the whole sorted series, [final_test] all of it but its
    last 4 rows, which is nothing for a series of at most 4 rows. *)
Theorem short_series_split output_dir file_path min_data_points w df0 :
  files w !! file_path = Some df0 →
  is_Some (index_of "start_date" (columns df0)) →
  min_data_points ≤ len df0 → len df0 < 8 →
  let w' := (RollingForecastSplitter._process_single_file to_datetime argsort
               output_dir file_path min_data_points w).2 in
  ∃ df, sorted_group to_datetime argsort df0 = Ok df ∧
    files w' !! train_filename output_dir file_path
    = Some {| columns := columns df0; rows := [] |} ∧
    files w' !! initial_test_filename output_dir file_path = Some df ∧
    files w' !! final_test_filename output_dir file_path
    = Some {| columns := columns df0; rows := take (len df0 - 4) (rows df) |}.
Proof.
  intros Hfile Hcol Hmin H8.
  destruct (process_single_file_split to_datetime argsort to_datetime_length argsort_perm
              output_dir _ _ _ _ Hfile Hcol Hmin) as (df & Hdf & Hlen & Hcols & ->).
  destruct (split_saved_files output_dir file_path df w) as (Htrain & Hinit & Hfinal).
  exists df. cbv zeta. cbn [snd]. rewrite Htrain, Hinit, Hfinal.
  assert (Hi : initial_test_df df = df).
  { unfold initial_test_df, iloc_last. replace (len df - 8) with 0 by lia.
    destruct df; reflexivity. }
  split; [exact Hdf|]. split; [|split].
  - unfold train_df, iloc_until_last. rewrite Hcols.
    replace (len df - 8) with 0 by lia. reflexivity.
  - rewrite Hi. reflexivity.
  - unfold final_test_df. rewrite Hi. unfold iloc_until_last. rewrite Hcols, Hlen.
    reflexivity.
Qed.

(** X9: for an input file [B.csv] the three files written are
    [B_train.csv], [B_initial_test.csv] and [B_final_test.csv] of the output
    directory, whatever directory the input is in and whatever dots [B]
    holds. *)
Theorem outputs_named_after_input output_dir input_dir B min_data_points w df0 :
  B ≠ "" →
  files w !! (input_dir, B +:+ ".csv") = Some df0 →
  is_Some (index_of "start_date" (columns df0)) →
  min_data_points ≤ len df0 →
  let w' := (RollingForecastSplitter._process_single_file to_datetime argsort
               output_dir (input_dir, B +:+ ".csv")
               min_data_points w).2 in
  ∃ df, sorted_group to_datetime argsort df0 = Ok df ∧
    files w' !! (output_dir, B +:+ "_train.csv") = Some (train_df df) ∧
    files w' !! (output_dir, B +:+ "_initial_test.csv") = Some (initial_test_df df) ∧
    files w' !! (output_dir, B +:+ "_final_test.csv") = Some (final_test_df df).
Proof.
  intros HB Hfile Hcol Hmin.
  destruct (process_single_file_split to_datetime argsort to_datetime_length argsort_perm
              output_dir _ _ _ _ Hfile Hcol Hmin) as (df & Hdf & _ & _ & ->).
  destruct (split_saved_files output_dir (input_dir, B +:+ ".csv") df w)
    as (Htrain & Hinit & Hfinal).
  unfold train_filename, initial_test_filename, final_test_filename in *.
  cbn [snd] in *. rewrite (stem_csv B HB) in *.
  exists df. cbv zeta. cbn [snd]. auto.
Qed.

(** X10: the split loses no row and makes none up: [train] and
    [initial_test] keep the header of the file, and their rows together
    are the rows of the file, each once, with the [start_date] cell
    replaced by what [to_datetime] made of it and every other cell as it
    was. *)
Theorem split_keeps_every_row output_dir file_path min_data_points w df0 i :
  files w !! file_path = Some df0 →
  index_of "start_date" (columns df0) = Some i →
  min_data_points ≤ len df0 →
  let w' := (RollingForecastSplitter._process_single_file to_datetime argsort
               output_dir file_path min_data_points w).2 in
  let column := map (fun row => default PNone (row !! i)) (rows df0) in
  ∃ train initial_test,
    files w' !! train_filename output_dir file_path = Some train ∧
    files w' !! initial_test_filename output_dir file_path = Some initial_test ∧
    columns train = columns df0 ∧ columns initial_test = columns df0 ∧
    rows train ++ rows initial_test
    ≡ₚ zip_with (fun row d => <[i := datetime_cell d]> row) (rows df0) (to_datetime column).
Proof.
  intros Hfile Hi Hmin.
  destruct (process_single_file_split to_datetime argsort to_datetime_length argsort_perm
              output_dir _ _ _ _ Hfile (mk_is_Some _ _ Hi) Hmin)
    as (df & Hdf & _ & Hcols & ->).
  destruct (split_saved_files output_dir file_path df w) as (Htrain & Hinit & _).
  exists (train_df df), (initial_test_df df). cbv zeta. cbn [snd].
  split; [exact Htrain|]. split; [exact Hinit|].
  split; [exact Hcols|]. split; [exact Hcols|].
  destruct (sorted_group_perm _ _ Hdf) as (column & Hcolumn & _ & Hperm).
  unfold train_df, initial_test_df, iloc_until_last, iloc_last. cbn [rows].
  rewrite take_drop, Hperm.
  unfold getitem in Hcolumn. rewrite Hi in Hcolumn. injection Hcolumn as <-.
  unfold coerced. rewrite (setitem_existing _ _ _ _ Hi). cbn [rows].
  rewrite zip_with_fmap_r. reflexivity.
Qed.
(** ** [process_files] and [create_rolling_splits] *)

Local Abbreviation globbed input_dir w :=
  (filter (fun p : Path => p.1 = input_dir ∧ RollingForecastSplitter.ends_with_csv p.2 = true)
     (map_to_list (files w)).*1).

Lemma globbed_spec input_dir w p :
  p ∈ globbed input_dir w
  ↔ p.1 = input_dir ∧ (∃ B, p.2 = B +:+ ".csv") ∧ is_Some (files w !! p).
Proof.
  rewrite list_elem_of_filter, list_elem_of_fmap, ends_with_csv_spec. split.
  - intros [[-> HB] ([k df] & -> & Hdf)]. apply elem_of_map_to_list in Hdf.
    repeat split; eauto.
  - intros (-> & HB & [df Hdf]). repeat split; [exact HB|].
    exists (p, df). split; [reflexivity|]. apply elem_of_map_to_list, Hdf.
Qed.

Lemma globbed_NoDup input_dir w : NoDup (globbed input_dir w).
Proof. apply NoDup_filter, NoDup_fst_map_to_list. Qed.

Lemma for_each_effect output_dir min_data_points l w :
  ∃ w', RollingForecastSplitter.for_each l
          (fun file_path => RollingForecastSplitter._process_single_file to_datetime argsort
                              output_dir file_path min_data_points) w
        = (Ok tt, w') ∧
    dirs w' = dirs w ∧
    (∀ p, (∀ q, q ∈ l → p ∉ outputs output_dir q) → files w' !! p = files w !! p) ∧
    (∀ p, is_Some (files w !! p) → is_Some (files w' !! p)) ∧
    (∃ records, log w' = log w ++ records ∧ length l ≤ length records).
Proof.
  revert w. induction l as [|x l IH]; intros w.
  - exists w. repeat split; auto. exists []. rewrite app_nil_r. auto.
  - destruct (process_single_file_effect output_dir x min_data_points w)
      as (w1 & Hrun & Hd1 & Ho1 & Hk1 & (r1 & Hr1 & Hl1)).
    destruct (IH w1) as (w' & Hloop & Hd & Ho & Hk & (r & Hl & Hlen)).
    exists w'. split.
    { cbn [RollingForecastSplitter.for_each]. unfold mbind, M_bind.
      rewrite Hrun. exact Hloop. }
    split; [congruence|]. split; [|split].
    + intros p Hp. rewrite Ho by (intros q Hq; apply Hp; by right).
      apply Ho1, Hp. by left.
    + auto.
    + exists (r1 ++ r). rewrite Hl, Hl1, app_assoc. split; [reflexivity|].
      rewrite length_app. destruct r1; [done|]. simpl. lia.
Qed.

Lemma process_files_effect self min_data_points w :
  ∃ w', RollingForecastSplitter.process_files to_datetime argsort self min_data_points w
        = (Ok tt, w') ∧
    dirs w' = dirs w ∧
    (∀ p, p.1 ≠ self.2 → files w' !! p = files w !! p) ∧
    (∀ p, is_Some (files w !! p) → is_Some (files w' !! p)) ∧
    (∃ records, log w' = log w ++ records ∧ length (globbed self.1 w) < length records).
Proof.
  unfold RollingForecastSplitter.process_files, RollingForecastSplitter.glob_csv,
    mbind, M_bind.
  destruct (globbed self.1 w) as [|x l] eqn:Hglob.
  - eexists. split; [reflexivity|]. cbn [files dirs log]. repeat split; auto.
    eexists. split; [reflexivity|]. simpl. lia.
  - unfold logger at 1.
    destruct (for_each_effect self.2 min_data_points (x :: l)
                {| files := files w; dirs := dirs w;
                   log := log w ++ [(INFO, Processing_files (length (x :: l)))] |})
      as (w' & -> & Hd & Ho & Hk & (r & Hl & Hlen)).
    cbn [files dirs log] in *. exists w'. split; [reflexivity|].
    split; [exact Hd|]. split; [|split; [exact Hk|]].
    + intros p Hp. apply Ho. intros q _ Hq. apply outputs_in_output_dir in Hq. done.
    + eexists. rewrite Hl, <- app_assoc. split; [reflexivity|].
      rewrite length_app. simpl in *. lia.
Qed.

(** X11: when the input directory holds no file whose name ends in
    [.csv], [process_files] logs one warning and does nothing else. *)
Theorem process_files_no_csv self min_data_points w :
  (∀ B, files w !! (self.1, B +:+ ".csv") = None) →
  RollingForecastSplitter.process_files to_datetime argsort self min_data_points w
  = (Ok tt, {| files := files w; dirs := dirs w;
               log := log w ++ [(WARNING, No_CSV_files_found self.1)] |}).
Proof.
  intros Hnone.
  unfold RollingForecastSplitter.process_files, RollingForecastSplitter.glob_csv,
    mbind, M_bind.
  destruct (globbed self.1 w) as [|x l] eqn:Hglob; [reflexivity|].
  assert (Hx : x ∈ globbed self.1 w) by (rewrite Hglob; by left).
  apply globbed_spec in Hx as (Hdir & [B HB] & [df Hdf]).
  destruct x as [dir name]. cbn [fst snd] in *. subst dir name.
  rewrite Hnone in Hdf. discriminate.
Qed.

(** The loop saves the split of every good file of its list, when the
    list is in another directory than the outputs and no two of its files
    share a stem. *)
Lemma for_each_splits output_dir min_data_points l : ∀ w file_path df0,
  NoDup l →
  (∀ p, p ∈ l → p.1 ≠ output_dir) →
  (∀ p q, p ∈ l → q ∈ l → stem p.2 = stem q.2 → p = q) →
  file_path ∈ l →
  files w !! file_path = Some df0 →
  is_Some (index_of "start_date" (columns df0)) →
  min_data_points ≤ len df0 →
  let w' := (RollingForecastSplitter.for_each l
               (fun file_path => RollingForecastSplitter._process_single_file to_datetime argsort
                                   output_dir file_path min_data_points)
               w).2 in
  ∃ df, sorted_group to_datetime argsort df0 = Ok df ∧
    files w' !! train_filename output_dir file_path = Some (train_df df) ∧
    files w' !! initial_test_filename output_dir file_path = Some (initial_test_df df) ∧
    files w' !! final_test_filename output_dir file_path = Some (final_test_df df).
Proof.
  induction l as [|x l IH]; intros w file_path df0 Hnd Hdir Hstem Hin Hfile Hcol Hmin;
    [by apply elem_of_nil in Hin|].
  apply NoDup_cons in Hnd as [Hx Hnd].
  destruct (process_single_file_effect output_dir x min_data_points w)
    as (w1 & Hrun & _ & Ho1 & _ & _).
  cbv zeta. cbn [RollingForecastSplitter.for_each]. unfold mbind, M_bind. rewrite Hrun.
  apply elem_of_cons in Hin as [->|Hin].
  - destruct (process_single_file_split to_datetime argsort to_datetime_length argsort_perm
                output_dir _ _ _ _ Hfile Hcol Hmin) as (df & Hdf & _ & _ & Hsplit).
    rewrite Hsplit in Hrun. injection Hrun as <-. exists df. split; [exact Hdf|].
    destruct (for_each_effect output_dir min_data_points l (split_saved output_dir x df w))
      as (w' & -> & _ & Ho & _ & _).
    cbn [snd]. destruct (split_saved_files output_dir x df w) as (H1 & H2 & H3).
    assert (Hkeep : ∀ p, p ∈ outputs output_dir x →
                         ∀ q, q ∈ l → p ∉ outputs output_dir q).
    { intros p Hp q Hq. apply (outputs_disjoint _ x); [|exact Hp].
      intros Heq. apply Hstem in Heq; [|by left|by right]. by subst q. }
    rewrite !Ho; [auto|apply Hkeep..]; unfold outputs; set_solver.
  - apply (IH w1 file_path df0); auto.
    + intros p Hp. apply Hdir. by right.
    + intros p q Hp Hq. apply Hstem; by right.
    + rewrite Ho1; [exact Hfile|]. intros Hout%outputs_in_output_dir.
      apply (Hdir file_path); [by right|exact Hout].
Qed.

(** X12: with its inputs and outputs in different directories and no
    input file called just [.csv], [process_files] saves for every input
    file [B.csv] that has a [start_date] column and enough rows the three
    slices of its sorted series as [B_train.csv], [B_initial_test.csv] and
    [B_final_test.csv]; the other files of the run, good or bad, do not
    disturb them. *)
Theorem process_files_splits_group input_dir output_dir min_data_points w B df0 :
  input_dir ≠ output_dir →
  files w !! (input_dir, ".csv") = None →
  files w !! (input_dir, B +:+ ".csv") = Some df0 →
  is_Some (index_of "start_date" (columns df0)) →
  min_data_points ≤ len df0 →
  let w' := (RollingForecastSplitter.process_files to_datetime argsort
               (input_dir, output_dir) min_data_points w).2 in
  ∃ df, sorted_group to_datetime argsort df0 = Ok df ∧
    files w' !! (output_dir, B +:+ "_train.csv") = Some (train_df df) ∧
    files w' !! (output_dir, B +:+ "_initial_test.csv") = Some (initial_test_df df) ∧
    files w' !! (output_dir, B +:+ "_final_test.csv") = Some (final_test_df df).
Proof.
  intros Hdirs Hdot Hfile Hcol Hmin.
  assert (HB : B ≠ "").
  { intros ->. change ("" +:+ ".csv") with ".csv" in Hfile. congruence. }
  assert (Hglob : (input_dir, B +:+ ".csv") ∈ globbed input_dir w).
  { apply globbed_spec. cbn [fst snd]. eauto. }
  assert (Hnames : ∀ p, p ∈ globbed input_dir w →
                        ∃ B', B' ≠ "" ∧ p = (input_dir, B' +:+ ".csv")).
  { intros [dir name] (Hdir & [B' HB'] & Hsome)%globbed_spec. cbn [fst snd] in *.
    subst dir name. exists B'. split; [|reflexivity].
    intros ->. change ("" +:+ ".csv") with ".csv" in Hsome.
    rewrite Hdot in Hsome. by destruct Hsome. }
  cbv zeta.
  unfold RollingForecastSplitter.process_files, RollingForecastSplitter.glob_csv,
    mbind, M_bind. cbn [fst snd].
  destruct (globbed input_dir w) as [|x l] eqn:Heq; [by apply elem_of_nil in Hglob|].
  unfold logger at 1.
  destruct (for_each_splits output_dir min_data_points (x :: l)
              {| files := files w; dirs := dirs w;
                 log := log w ++ [(INFO, Processing_files (length (x :: l)))] |}
              (input_dir, B +:+ ".csv") df0) as (df & Hdf & H);
    [| | |exact Hglob| |exact Hcol|exact Hmin|].
  - rewrite <- Heq. apply globbed_NoDup.
  - intros p Hp. apply Hnames in Hp as (B' & _ & ->). exact Hdirs.
  - intros p q (Bp & HBp & ->)%Hnames (Bq & HBq & ->)%Hnames. cbn [snd].
    rewrite !stem_csv by assumption. by intros ->.
  - cbn [files]. exact Hfile.
  - exists df. split; [exact Hdf|].
    unfold train_filename, initial_test_filename, final_test_filename in H.
    cbn [snd] in H. rewrite (stem_csv B HB) in H. exact H.
Qed.
Lemma create_rolling_splits_unfold input_dir output_dir w :
  RollingForecastSplitter.create_rolling_splits to_datetime argsort input_dir output_dir w
  = RollingForecastSplitter.process_files to_datetime argsort (input_dir, output_dir) 8
      {| files := files w; dirs := {[output_dir]} ∪ dirs w; log := log w |}.
Proof. reflexivity. Qed.


(** A group too short for the threshold is not written, with or without
    its [start_date] column. *)
Lemma process_single_file_short output_dir file_path min_data_points w df0 :
  files w !! file_path = Some df0 → len df0 < min_data_points →
  ∃ w', RollingForecastSplitter._process_single_file to_datetime argsort
          output_dir file_path min_data_points w = (Ok tt, w') ∧
    files w' = files w ∧
    (is_Some (index_of "start_date" (columns df0)) →
     log w' = log w ++
       [(WARNING, Not_enough_data_points file_path.2 (len df0) min_data_points)]).
Proof.
  intros Hfile Hlen.
  destruct (process_single_file_cases output_dir file_path min_data_points w)
    as [(e & -> & He)|[(df0' & df & Hf & Hdf & Hmin & ->)|(df0' & df & Hf & Hdf & Hmin & ->)]];
    rewrite Hfile in *; try injection Hf as <-.
  - eexists. split; [reflexivity|]. split; [reflexivity|]. intros Hcol.
    destruct (sorted_group_exists to_datetime argsort to_datetime_length argsort_perm
                df0 Hcol) as (df & Hdf & _).
    congruence.
  - eexists. split; [reflexivity|]. split; [reflexivity|]. intros _.
    destruct (sorted_group_len to_datetime argsort to_datetime_length argsort_perm
                _ _ Hdf) as [-> _].
    reflexivity.
  - destruct (sorted_group_len to_datetime argsort to_datetime_length argsort_perm
                _ _ Hdf) as [Hl _].
    lia.
Qed.

Lemma for_each_skips output_dir min_data_points l : ∀ w file_path df0,
  (∀ p, p ∈ l → p.1 ≠ output_dir) →
  file_path.1 ≠ output_dir →
  (∀ q, q ∈ l → stem q.2 = stem file_path.2 → q = file_path) →
  files w !! file_path = Some df0 →
  len df0 < min_data_points →
  let w' := (RollingForecastSplitter.for_each l
               (fun file_path => RollingForecastSplitter._process_single_file to_datetime argsort
                                   output_dir file_path min_data_points)
               w).2 in
  (∀ p, p ∈ outputs output_dir file_path → files w' !! p = files w !! p) ∧
  (file_path ∈ l → is_Some (index_of "start_date" (columns df0)) →
   (WARNING, Not_enough_data_points file_path.2 (len df0) min_data_points) ∈ log w').
Proof.
  induction l as [|x l IH]; intros w file_path df0 Hdir Hfp Hstem Hfile Hlen; cbv zeta.
  { split; [reflexivity|]. by intros ?%elem_of_nil. }
  cbn [RollingForecastSplitter.for_each]. unfold mbind, M_bind.
  assert (Hdir' : ∀ p, p ∈ l → p.1 ≠ output_dir) by (intros p Hp; apply Hdir; by right).
  assert (Hstem' : ∀ q, q ∈ l → stem q.2 = stem file_path.2 → q = file_path)
    by (intros q Hq; apply Hstem; by right).
  destruct (decide (x = file_path)) as [->|Hx].
  - destruct (process_single_file_short output_dir file_path min_data_points w df0
                Hfile Hlen) as (w1 & -> & Hfiles & Hlog).
    assert (Hfile1 : files w1 !! file_path = Some df0) by (rewrite Hfiles; exact Hfile).
    destruct (IH w1 file_path df0 Hdir' Hfp Hstem' Hfile1 Hlen) as [Hout _].
    split; [intros p Hp; rewrite (Hout p Hp), Hfiles; reflexivity|].
    intros _ Hcol.
    destruct (for_each_effect output_dir min_data_points l w1)
      as (w' & -> & _ & _ & _ & (records & Hrec & _)).
    cbn [snd]. rewrite Hrec, (Hlog Hcol).
    apply elem_of_app. left. apply elem_of_app. right. by left.
  - destruct (process_single_file_effect output_dir x min_data_points w)
      as (w1 & -> & _ & Ho1 & _ & _).
    assert (Hfile1 : files w1 !! file_path = Some df0).
    { rewrite Ho1; [exact Hfile|]. by intros Hout%outputs_in_output_dir. }
    destruct (IH w1 file_path df0 Hdir' Hfp Hstem' Hfile1 Hlen) as [Hout Hwarn].
    split.
    + intros p Hp. rewrite (Hout p Hp). apply Ho1.
      apply (outputs_disjoint _ file_path); [|exact Hp].
      intros Heq. apply Hx, Hstem; [by left|by symmetry].
    + intros [Heq|Hin]%elem_of_cons Hcol; [by subst x|]. by apply Hwarn.
Qed.

(** X14: under [create_rolling_splits], with its default threshold of 8,
    an input file [B.csv] of fewer than 8 rows gets no output: whatever
    stood under its three output names stands there still (nothing, in a
    fresh output directory), the other files of the run notwithstanding,
    and the log carries the warning with the row count. *)
Theorem create_rolling_splits_skips_short input_dir output_dir w B df0 :
  input_dir ≠ output_dir →
  files w !! (input_dir, ".csv") = None →
  files w !! (input_dir, B +:+ ".csv") = Some df0 →
  is_Some (index_of "start_date" (columns df0)) →
  len df0 < 8 →
  let w' := (RollingForecastSplitter.create_rolling_splits to_datetime argsort
               input_dir output_dir w).2 in
  files w' !! (output_dir, B +:+ "_train.csv") = files w !! (output_dir, B +:+ "_train.csv")
  ∧ files w' !! (output_dir, B +:+ "_initial_test.csv")
    = files w !! (output_dir, B +:+ "_initial_test.csv")
  ∧ files w' !! (output_dir, B +:+ "_final_test.csv")
    = files w !! (output_dir, B +:+ "_final_test.csv")
  ∧ (WARNING, Not_enough_data_points (B +:+ ".csv") (len df0) 8) ∈ log w'.
Proof.
  intros Hdirs Hdot Hfile Hcol Hlen.
  assert (HB : B ≠ "").
  { intros ->. change ("" +:+ ".csv") with ".csv" in Hfile. congruence. }
  cbv zeta. rewrite create_rolling_splits_unfold.
  set (w0 := {| files := files w; dirs := {[output_dir]} ∪ dirs w; log := log w |}).
  assert (Hglob : (input_dir, B +:+ ".csv") ∈ globbed input_dir w0).
  { apply globbed_spec. cbn [fst snd]. eauto. }
  assert (Hnames : ∀ p, p ∈ globbed input_dir w0 →
                        ∃ B', B' ≠ "" ∧ p = (input_dir, B' +:+ ".csv")).
  { intros [dir name] (Hdir & [B' HB'] & Hsome)%globbed_spec. cbn [fst snd] in *.
    subst dir name. exists B'. split; [|reflexivity].
    intros ->. change ("" +:+ ".csv") with ".csv" in Hsome.
    unfold w0 in Hsome. cbn [files] in Hsome. rewrite Hdot in Hsome. by destruct Hsome. }
  unfold RollingForecastSplitter.process_files, RollingForecastSplitter.glob_csv,
    mbind, M_bind. cbn [fst snd].
  destruct (globbed input_dir w0) as [|x l] eqn:Heq; [by apply elem_of_nil in Hglob|].
  unfold logger at 1.
  destruct (for_each_skips output_dir 8 (x :: l)
              {| files := files w0; dirs := dirs w0;
                 log := log w0 ++ [(INFO, Processing_files (length (x :: l)))] |}
              (input_dir, B +:+ ".csv") df0) as [Hout Hwarn];
    [| | |exact Hfile|exact Hlen|].
  - intros p Hp. apply Hnames in Hp as (B' & _ & ->). exact Hdirs.
  - exact Hdirs.
  - intros q (Bq & HBq & ->)%Hnames. cbn [snd].
    rewrite !stem_csv by assumption. by intros ->.
  - cbv zeta in Hout, Hwarn. unfold outputs in Hout.
    unfold train_filename, initial_test_filename, final_test_filename in Hout.
    cbn [snd] in Hout, Hwarn. rewrite (stem_csv B HB) in Hout.
    split; [apply Hout; by left|].
    split; [apply Hout; right; by left|].
    split; [apply Hout; right; right; by left|].
    apply Hwarn; [exact Hglob|exact Hcol].
Qed.
End splitter_runs.

Lemma process_single_file_unreadable_witness :
  RollingForecastSplitter._process_single_file to_datetime_iso merge_argsort
    "data/split_data" P1_M 8 quiet
  = (Ok tt, errored P1_M FileNotFoundError quiet)
  ∧ RollingForecastSplitter._process_single_file to_datetime_iso merge_argsort
      "data/split_data" P1_M 8 no_dates
    = (Ok tt, errored P1_M KeyError no_dates).
Proof.
  split.
  - apply (proj1 (process_single_file_unreadable to_datetime_iso merge_argsort
                    "data/split_data" P1_M 8 quiet)).
    reflexivity.
  - apply (proj2 (process_single_file_unreadable to_datetime_iso merge_argsort
                    "data/split_data" P1_M 8 no_dates)
             (select_columns nine_months ["partner_id"; "revenue"])).
    + reflexivity.
    + intros H. apply list_elem_of_In in H. simpl in H.
      repeat destruct H as [H|H]; try discriminate H; exact H.
Defined.

Lemma short_series_split_witness :
  let w' := (RollingForecastSplitter._process_single_file to_datetime_iso merge_argsort
               "data/split_data" P1_M 3 (disk (first_rows 5 nine_months))).2 in
  ∃ df, sorted_group to_datetime_iso merge_argsort (first_rows 5 nine_months) = Ok df ∧
    files w' !! ("data/split_data", "P1_M_train.csv")
    = Some {| columns := processed_columns; rows := [] |} ∧
    files w' !! ("data/split_data", "P1_M_initial_test.csv") = Some df ∧
    files w' !! ("data/split_data", "P1_M_final_test.csv")
    = Some {| columns := processed_columns; rows := take 1 (rows df) |}.
Proof.
  apply (short_series_split to_datetime_iso merge_argsort
           to_datetime_iso_length merge_argsort_perm
           "data/split_data" P1_M 3 (disk (first_rows 5 nine_months))
           (first_rows 5 nine_months)).
  - reflexivity.
  - exists 4. reflexivity.
  - vm_compute. lia.
  - vm_compute. lia.
Defined.

Lemma outputs_named_after_input_witness :
  let w' := (RollingForecastSplitter._process_single_file to_datetime_iso merge_argsort
               "data/split_data" ("data/processed", "P1_M" +:+ ".csv") 8
               (disk nine_months)).2 in
  ∃ df, sorted_group to_datetime_iso merge_argsort nine_months = Ok df ∧
    files w' !! ("data/split_data", "P1_M" +:+ "_train.csv") = Some (train_df df) ∧
    files w' !! ("data/split_data", "P1_M" +:+ "_initial_test.csv")
    = Some (initial_test_df df) ∧
    files w' !! ("data/split_data", "P1_M" +:+ "_final_test.csv")
    = Some (final_test_df df).
Proof.
  apply (outputs_named_after_input to_datetime_iso merge_argsort
           to_datetime_iso_length merge_argsort_perm
           "data/split_data" "data/processed" "P1_M" 8 (disk nine_months) nine_months).
  - discriminate.
  - reflexivity.
  - exists 4. reflexivity.
  - vm_compute. lia.
Defined.

Lemma split_keeps_every_row_witness :
  let w' := (RollingForecastSplitter._process_single_file to_datetime_iso merge_argsort
               "data/split_data" P1_M 8 (disk nine_months)).2 in
  ∃ train initial_test,
    files w' !! train_filename "data/split_data" P1_M = Some train ∧
    files w' !! initial_test_filename "data/split_data" P1_M = Some initial_test ∧
    columns train = processed_columns ∧ columns initial_test = processed_columns ∧
    rows train ++ rows initial_test
    ≡ₚ zip_with (fun row d => <[4 := datetime_cell d]> row) (rows nine_months)
         (to_datetime_iso (start_dates nine_months)).
Proof.
  apply (split_keeps_every_row to_datetime_iso merge_argsort
           to_datetime_iso_length merge_argsort_perm
           "data/split_data" P1_M 8 (disk nine_months) nine_months 4).
  - reflexivity.
  - reflexivity.
  - vm_compute. lia.
Defined.

Lemma process_files_no_csv_witness :
  RollingForecastSplitter.process_files to_datetime_iso merge_argsort
    ("data/processed", "data/split_data") 8 quiet
  = (Ok tt, {| files := ∅; dirs := ∅;
               log := [(WARNING, No_CSV_files_found "data/processed")] |}).
Proof.
  apply (process_files_no_csv to_datetime_iso merge_argsort
           ("data/processed", "data/split_data") 8 quiet).
  intros B. apply lookup_empty.
Defined.

Lemma process_files_splits_group_witness :
  let w' := (RollingForecastSplitter.process_files to_datetime_iso merge_argsort
               ("data/processed", "data/split_data") 8 two_groups).2 in
  ∃ df, sorted_group to_datetime_iso merge_argsort nine_months = Ok df ∧
    files w' !! ("data/split_data", "P1_M" +:+ "_train.csv") = Some (train_df df) ∧
    files w' !! ("data/split_data", "P1_M" +:+ "_initial_test.csv")
    = Some (initial_test_df df) ∧
    files w' !! ("data/split_data", "P1_M" +:+ "_final_test.csv")
    = Some (final_test_df df).
Proof.
  apply (process_files_splits_group to_datetime_iso merge_argsort
           to_datetime_iso_length merge_argsort_perm
           "data/processed" "data/split_data" 8 two_groups "P1_M" nine_months).
  - discriminate.
  - reflexivity.
  - reflexivity.
  - exists 4. reflexivity.
  - vm_compute. lia.
Defined.

Lemma create_rolling_splits_skips_short_witness :
  let w' := (RollingForecastSplitter.create_rolling_splits to_datetime_iso merge_argsort
               "data/processed" "data/split_data" two_groups).2 in
  files w' !! ("data/split_data", "P2_M" +:+ "_train.csv") = None
  ∧ files w' !! ("data/split_data", "P2_M" +:+ "_initial_test.csv") = None
  ∧ files w' !! ("data/split_data", "P2_M" +:+ "_final_test.csv") = None
  ∧ (WARNING, Not_enough_data_points ("P2_M" +:+ ".csv") 5 8) ∈ log w'.
Proof.
  apply (create_rolling_splits_skips_short to_datetime_iso merge_argsort
           to_datetime_iso_length merge_argsort_perm
           "data/processed" "data/split_data" two_groups "P2_M"
           (first_rows 5 nine_months)).
  - discriminate.
  - reflexivity.
  - reflexivity.
  - exists 4. reflexivity.
  - vm_compute. lia.
Defined.

(** ** [DataPreprocessor.__init__] *)



(** ** [_process_data] *)

Lemma parse_period_run x w :
  DataPreprocessor._parse_period x w
  = (Ok (parsed x), {| files := files w; dirs := dirs w; log := log w ++ parse_log x |}).
Proof.
  assert (H : (∃ p, ∀ w, DataPreprocessor._parse_period x w = (Ok p, w)) ∨
              (∃ e, ∀ w, DataPreprocessor._parse_period x w
                         = (Ok (PNone, PNone), warned x e w))).
  { destruct (classic_str x) as [[s ->]|Hx].
    2:{ right. eexists. intros w'. apply parse_period_not_str, Hx. }
    destruct (json_loads (replace_char "'" DQUOTE s)) as [v|e] eqn:E.
    - destruct (type ← py_get v "type" (PDict []);
                period_type ← py_get type "S" PNone;
                start ← py_get v "start_date" (PDict []);
                start_date ← py_get start "S" PNone;
                Ok (period_type, start_date)) as [p|e] eqn:Hp; [left|right];
        eexists; intros w'; rewrite (parse_period_decoded _ _ _ E), Hp; reflexivity.
    - right. eexists. intros w'. eapply parse_period_undecodable, E. }
  unfold parsed, parse_log. destruct H as [[p H]|[e H]]; rewrite (H w), (H quiet).
  - cbn [fst snd log quiet]. rewrite app_nil_r. destruct w; reflexivity.
  - reflexivity.
Qed.

Lemma apply_parse_period periods w :
  apply DataPreprocessor._parse_period periods w
  = (Ok (map parsed periods),
     {| files := files w; dirs := dirs w;
        log := log w ++ concat (map parse_log periods) |}).
Proof.
  revert w. induction periods as [|x periods IH]; intros w.
  - cbn [apply map concat]. rewrite app_nil_r. destruct w; reflexivity.
  - cbn [apply]. unfold mbind, M_bind. rewrite parse_period_run, IH.
    cbn [files dirs log map concat]. rewrite app_assoc. reflexivity.
Qed.

Lemma stage_rows_added (rows0 : list (list pyval)) :
  Forall (fun row => length row = 4) rows0 →
  delete 1 <$>
    zip_with (fun row x => row ++ [x])
      (zip_with (fun row x => row ++ [x]) rows0
         (map parsed (map (fun row => default PNone (row !! 1)) rows0)).*1)
      (map parsed (map (fun row => default PNone (row !! 1)) rows0)).*2
  = map (fun row => [cell 0 row; cell 2 row; cell 3 row;
                     (parsed (cell 1 row)).1; (parsed (cell 1 row)).2]) rows0.
Proof.
  induction 1 as [|row rows0 Hrow _ IH]; [reflexivity|].
  cbn [map fmap list_fmap zip_with]. rewrite <- IH. f_equal.
  destruct row as [|a [|b [|c [|d [|]]]]]; try discriminate Hrow. reflexivity.
Qed.

Lemma stage_rows_dated (rows0 : list (list pyval)) (dates : list (option Z)) :
  zip_with (fun row x => <[4 := x]> row)
    (map (fun row => [cell 0 row; cell 2 row; cell 3 row;
                      (parsed (cell 1 row)).1; (parsed (cell 1 row)).2]) rows0)
    (datetime_cell <$> dates)
  = zip_with (fun row d => [cell 0 row; cell 2 row; cell 3 row;
                            (parsed (cell 1 row)).1; datetime_cell d]) rows0 dates.
Proof.
  revert dates. induction rows0 as [|row rows0 IH]; intros [|d dates]; try reflexivity.
  cbn [map fmap list_fmap zip_with]. f_equal. apply IH.
Qed.

Lemma stage_keys (rows0 : list (list pyval)) (dates : list (option Z)) :
  length dates = length rows0 →
  map (fun row => default PNone (row !! 4))
    (zip_with (fun row d => [cell 0 row; cell 2 row; cell 3 row;
                             (parsed (cell 1 row)).1; datetime_cell d]) rows0 dates)
  = datetime_cell <$> dates.
Proof.
  revert dates. induction rows0 as [|row rows0 IH]; intros [|d dates]; try discriminate;
    [reflexivity|].
  intros [= Hlen]. cbn [map fmap list_fmap zip_with]. f_equal. apply IH, Hlen.
Qed.

Lemma stage_rows_kept (rows0 : list (list pyval)) (dates : list (option Z)) :
  filter (fun row => isna (default PNone (row !! 4)) = false)
    (zip_with (fun row d => [cell 0 row; cell 2 row; cell 3 row;
                             (parsed (cell 1 row)).1; datetime_cell d]) rows0 dates)
  = omap id (zip_with processed_row rows0 dates).
Proof.
  revert dates. induction rows0 as [|row rows0 IH]; intros [|d dates]; try reflexivity.
  cbn [zip_with]. rewrite filter_cons. cbn [omap list_omap]. rewrite <- IH.
  destruct d as [t|]; reflexivity.
Qed.

Lemma stage_invalid_dates (dates : list (option Z)) :
  length (filter (fun x => isna x = true) (datetime_cell <$> dates))
  = length (filter (fun d : option Z => d = None) dates).
Proof.
  induction dates as [|[t|] dates IH]; [reflexivity| |].
  - cbn [fmap list_fmap]. rewrite !filter_cons. simpl. exact IH.
  - cbn [fmap list_fmap]. rewrite !filter_cons. simpl. f_equal. exact IH.
Qed.

Lemma stage_none_invalid (rows0 : list (list pyval)) (dates : list (option Z)) :
  length (filter (fun d : option Z => d = None) dates) = 0 →
  zip_with (fun row d => [cell 0 row; cell 2 row; cell 3 row;
                          (parsed (cell 1 row)).1; datetime_cell d]) rows0 dates
  = omap id (zip_with processed_row rows0 dates).
Proof.
  revert dates. induction rows0 as [|row rows0 IH]; intros [|d dates]; try reflexivity.
  rewrite filter_cons. destruct d as [t|]; [|discriminate]. simpl.
  intros H. f_equal. apply IH, H.
Qed.

Lemma stage_count (rows0 : list (list pyval)) (dates : list (option Z)) :
  length dates = length rows0 →
  length (omap id (zip_with processed_row rows0 dates))
  + length (filter (fun d : option Z => d = None) dates) = length rows0.
Proof.
  revert dates. induction rows0 as [|row rows0 IH]; intros [|d dates]; try discriminate;
    [reflexivity|].
  intros [= Hlen]. specialize (IH dates Hlen). rewrite filter_cons.
  destruct d as [t|]; simpl in *.
  - unfold omap in IH. lia.
  - unfold omap in IH. lia.
Qed.

Lemma index_of_period_renamed cols :
  index_of "period" (map (fun c => if String.eqb c "value" then "revenue" else c) cols)
  = index_of "period" cols.
Proof.
  induction cols as [|c cols IH]; [reflexivity|].
  cbn [map index_of]. rewrite IH.
  destruct (String.eqb_spec c "value") as [->|Hc]; reflexivity.
Qed.

Lemma process_data_no_rows to_datetime df s :
  "period" ∈ columns df →
  rows df = [] →
  _process_data to_datetime df s
  = (Raise ValueError,
     {| session_files := session_files s; session_dirs := session_dirs s;
        session_log := session_log s ++ [] |}).
Proof.
  intros Hperiod Hrows. apply index_of_Some in Hperiod as [i Hi].
  unfold _process_data, rename, getitem. cbn [columns rows].
  rewrite index_of_period_renamed, Hi, Hrows. cbn [map].
  unfold mbind at 1. unfold Run_bind at 1. unfold lift_result at 1.
  unfold mbind at 1. unfold Run_bind at 1. unfold call at 1.
  rewrite apply_parse_period. cbn [map concat fmap list_fmap app files dirs log].
  reflexivity.
Qed.

(** X16: a raw table without a row makes [_process_data] raise
    [ValueError]: no period is parsed, the frame built of no pair has no
    column, and the two new columns cannot be set from it. Nothing is
    logged. *)
Theorem process_data_empty to_datetime df s :
  "period" ∈ columns df →
  rows df = [] →
  let r := _process_data to_datetime df s in
  r.1 = Raise ValueError ∧ session_files r.2 = session_files s ∧
  session_dirs r.2 = session_dirs s ∧ session_log r.2 = session_log s.
Proof.
  intros Hperiod Hrows. cbv zeta.
  rewrite (process_data_no_rows to_datetime df s Hperiod Hrows).
  cbn [fst snd session_files session_dirs session_log].
  rewrite app_nil_r. auto.
Qed.

Lemma stage_setitem_pairs (rows0 : list (list pyval)) :
  rows0 ≠ [] →
  setitem_pairs
    {| columns := ["partner_id"; "period"; "report_type"; "revenue"]; rows := rows0 |}
    "period_type" "start_date"
    (map parsed (map (fun row => default PNone (row !! 1)) rows0))
  = Ok {| columns := ["partner_id"; "period"; "report_type"; "revenue";
                      "period_type"; "start_date"];
          rows := zip_with (fun row x => row ++ [x])
                    (zip_with (fun row x => row ++ [x]) rows0
                       (map parsed (map (fun row => default PNone (row !! 1)) rows0)).*1)
                    (map parsed (map (fun row => default PNone (row !! 1)) rows0)).*2 |}.
Proof. destruct rows0 as [|row rows0]; [done|]. reflexivity. Qed.

Section processing.
Variable to_datetime : list pyval → list (option Z).
Hypothesis to_datetime_length : ∀ column, length (to_datetime column) = length column.

Lemma process_data_run df s :
  columns df = DataPreprocessor.required_columns →
  rectangular df →
  rows df ≠ [] →
  let dates := to_datetime (parsed_periods df).*2 in
  let table := {| columns := processed_columns;
                  rows := omap id (zip_with processed_row (rows df) dates) |} in
  _process_data to_datetime df s
  = (Ok table,
     {| session_files := session_files s; session_dirs := session_dirs s;
        session_log := session_log s ++
          processing_log df (length (filter (fun d : option Z => d = None) dates))
            (len table) |}).
Proof.
  destruct df as [cols rows0]. unfold rectangular. cbn [columns rows].
  intros -> Hrect Hne. cbv zeta.
  assert (Hdates : length (to_datetime
            (parsed_periods {| columns := DataPreprocessor.required_columns;
                               rows := rows0 |}).*2) = length rows0).
  { rewrite to_datetime_length, length_fmap. apply length_map. }
  revert Hdates.
  unfold processing_log, parsed_periods, len. cbn [rows columns].
  rewrite <- list_fmap_compose.
  change (snd ∘ (fun row => parsed (cell 1 row)))
    with (fun row : list pyval => (parsed (cell 1 row)).2).
  set (dates := to_datetime _). intros Hdates.
  unfold _process_data.
  change (rename _ "value" "revenue")
    with {| columns := ["partner_id"; "period"; "report_type"; "revenue"]; rows := rows0 |}.
  cbv zeta.
  change (getitem {| columns := ["partner_id"; "period"; "report_type"; "revenue"];
                     rows := rows0 |} "period")
    with (Ok (map (fun row => default PNone (row !! 1)) rows0)).
  unfold mbind at 1. unfold Run_bind at 1. unfold lift_result at 1.
  unfold mbind at 1. unfold Run_bind at 1. unfold call at 1.
  rewrite apply_parse_period. cbn [files dirs log app].
  unfold mbind at 1. unfold Run_bind at 1. unfold lift_result at 1.
  rewrite (stage_setitem_pairs rows0 Hne).
  unfold mbind at 1. unfold Run_bind at 1. unfold lift_result at 1.
  change (drop_column _ "period")
    with (Ok {| columns := processed_columns;
                rows := delete 1 <$>
                  zip_with (fun row x => row ++ [x])
                    (zip_with (fun row x => row ++ [x]) rows0
                       (map parsed (map (fun row => default PNone (row !! 1)) rows0)).*1)
                    (map parsed (map (fun row => default PNone (row !! 1)) rows0)).*2 |}).
  rewrite (stage_rows_added rows0 Hrect).
  unfold mbind at 1. unfold Run_bind at 1. unfold lift_result at 1.
  match goal with |- context [getitem ?d "start_date"] =>
    change (getitem d "start_date")
      with (Ok (map (fun row => default PNone (row !! 4)) (rows d)))
  end.
  cbn [rows]. rewrite map_map.
  change (to_datetime (map _ rows0)) with dates.
  match goal with |- context [setitem ?d "start_date" ?cells] =>
    change (setitem d "start_date" cells)
      with {| columns := processed_columns;
              rows := zip_with (fun row c => <[4 := c]> row) (rows d) cells |}
  end.
  cbn [rows]. rewrite stage_rows_dated.
  match goal with |- context [getitem ?d "start_date"] =>
    change (getitem d "start_date")
      with (Ok (map (fun row => default PNone (row !! 4)) (rows d)))
  end.
  cbn [rows]. rewrite (stage_keys rows0 dates Hdates).
  unfold mbind at 1. unfold Run_bind at 1. unfold lift_result at 1.
  rewrite stage_invalid_dates.
  rewrite map_map.
  change (fun x : list pyval => parse_log (default PNone (x !! 1)))
    with (fun row : list pyval => parse_log (cell 1 row)).
  case_bool_decide as Hk.
  - unfold mbind, Run_bind, notify, lift_result, mret, Run_ret.
    cbn [session_files session_dirs session_log].
    match goal with |- context [dropna ?d "start_date"] =>
      change (dropna d "start_date")
        with (Ok {| columns := processed_columns;
                    rows := filter (fun row => isna (default PNone (row !! 4)) = false)
                              (rows d) |})
    end.
    cbn [rows]. rewrite stage_rows_kept. unfold len. cbn [rows columns].
    rewrite <- !app_assoc. reflexivity.
  - unfold mbind, Run_bind, notify, lift_result, mret, Run_ret.
    cbn [session_files session_dirs session_log].
    rewrite stage_none_invalid by lia. unfold len. cbn [rows columns].
    rewrite <- !app_assoc. reflexivity.
Qed.




(** What pandas promises of [to_datetime(..., errors='coerce')] on a
    missing value. *)
Hypothesis to_datetime_None : ∀ column j,
  column !! j = Some PNone → to_datetime column !! j = Some None.

End processing.

Lemma raw_periods_rectangular : rectangular raw_periods.
Proof. repeat constructor. Qed.

Lemma to_datetime_iso_None column j :
  column !! j = Some PNone → to_datetime_iso column !! j = Some None.
Proof.
  intros H. unfold to_datetime_iso.
  change (map ?f column) with (f <$> column). rewrite list_lookup_fmap, H. reflexivity.
Qed.

Lemma process_data_empty_witness :
  let r := _process_data to_datetime_iso header_only fresh in
  r.1 = Raise ValueError ∧ session_files r.2 = ∅ ∧ session_dirs r.2 = ∅ ∧
  session_log r.2 = [].
Proof.
  apply (process_data_empty to_datetime_iso header_only fresh).
  - apply list_elem_of_In. simpl. tauto.
  - reflexivity.
Defined.




